(** * MoodMate: the emotion-stabilisation core of [moodmate_final.py]

    A shallow embedding of [EmotionAnalyzer] (rolling window, mode vote,
    pause / resume) together with the Python library functions it calls
    ([collections.deque], [collections.Counter], [statistics.mode],
    [random.choice], [dict.get], [str.lower]), and the properties of the
    stability tracker proved over that embedding. *)

From Stdlib Require Import String Ascii List Bool Arith ZArith Lia.
Import ListNotations.
Local Open Scope string_scope.
Local Open Scope list_scope.
Local Open Scope nat_scope.

(** ** Python values used by the analyzer *)

Module Py.

(** Truth value of a [str]: only the empty string is falsy. *)
Definition truthy (s : string) : bool :=
  match s with
  | EmptyString => false
  | String _ _ => true
  end.

(** [d.get(key, default)] on a dict held in insertion order. *)
Fixpoint dict_get {V : Type} (d : list (string * V)) (key : string) (default : V) : V :=
  match d with
  | [] => default
  | (k, v) :: d' => if String.eqb k key then v else dict_get d' key default
  end.

(** [list(d.keys())]. *)
Definition keys {V : Type} (d : list (string * V)) : list string := map fst d.

(** [str.lower]: the letters A..Z are moved to a..z.  Code points outside
    ASCII are left as they are; none of the keys looked up below contains a
    letter that a non-ASCII code point lowers to. *)
Definition lower_ascii (c : ascii) : ascii :=
  let n := nat_of_ascii c in
  if ((65 <=? n) && (n <=? 90))%nat then ascii_of_nat (n + 32) else c.

Fixpoint lower (s : string) : string :=
  match s with
  | EmptyString => EmptyString
  | String c s' => String (lower_ascii c) (lower s')
  end.

(** [random.choice(seq)] is [seq[randbelow(len(seq))]]; the number drawn
    from the generator is an input [rnd], reduced below [len(seq)]. *)
Definition random_choice (rnd : nat) (seq : list string) : string :=
  nth (rnd mod List.length seq) seq "".

(** A float, as far as comparing goes: [NaN], or a number by its place in
    the order (the infinities are numbers beyond the finite ones). *)
Inductive float := NaN | Num (z : Z).

(** [a > b] on floats: false as soon as one side is [NaN]. *)
Definition float_gt (a b : float) : bool :=
  match a, b with
  | Num x, Num y => (y <? x)%Z
  | _, _ => false
  end.

(** [max(d, key=d.get)] on a non-empty dict: the first key is kept until a
    later key has a value [>] the kept one.  With values that cannot be
    compared the call raises, which [_predict] catches. *)
Fixpoint max_key (best : string * float) (items : list (string * float)) : string :=
  match items with
  | [] => fst best
  | it :: rest =>
      if float_gt (snd it) (snd best) then max_key it rest else max_key best rest
  end.

End Py.

(** ** [collections.deque(maxlen=n)] *)

Module Deque.

(** [append] puts the item on the right and, when the deque then holds more
    than [maxlen] items, drops the leftmost one. *)
Definition append (maxlen : nat) (d : list string) (x : string) : list string :=
  let d' := d ++ [x] in
  if (maxlen <? List.length d')%nat then tl d' else d'.

Definition clear (d : list string) : list string := [].

End Deque.

(** ** [collections.Counter] and [statistics.mode] *)

Module Statistics.

(** [mapping[elem] = mapping.get(elem, 0) + 1], the dict keeping the order
    in which keys were first inserted. *)
Fixpoint incr (table : list (string * nat)) (elem : string) : list (string * nat) :=
  match table with
  | [] => [(elem, 1)]
  | (k, n) :: table' =>
      if String.eqb k elem then (k, S n) :: table' else (k, n) :: incr table' elem
  end.

(** [c[key]] on a counter: the stored count, 0 for a key never counted. *)
Definition freq (table : list (string * nat)) (key : string) : nat :=
  Py.dict_get table key 0.

(** [Counter(iter(data))]. *)
Definition Counter (data : list string) : list (string * nat) :=
  fold_left incr data [].

(** [max(items, key=itemgetter(1))]: a later item replaces the current one
    only when its count is strictly larger. *)
Fixpoint max_count (best : string * nat) (items : list (string * nat)) : string * nat :=
  match items with
  | [] => best
  | it :: rest =>
      if (snd best <? snd it)%nat then max_count it rest else max_count best rest
  end.

(** [Counter.most_common(1)]. *)
Definition most_common_1 (table : list (string * nat)) : list (string * nat) :=
  match table with
  | [] => []
  | it :: rest => [max_count it rest]
  end.

(** [statistics._counts(data)] of Python before 3.8: the entries of the
    counter that share the largest count, in first-seen order. *)
Definition _counts (data : list string) : list (string * nat) :=
  let table := Counter data in
  let maxfreq := fold_right Nat.max 0 (map snd table) in
  filter (fun it => (snd it =? maxfreq)%nat) table.

(** The two behaviours [statistics.mode] has had.  [FirstMode] is Python
    3.8 and later: the first of the most common values.  [UniqueMode] is
    Python before 3.8: [StatisticsError] unless exactly one value is most
    common.  Both raise [StatisticsError] on empty data.  [None] stands for
    the raised exception. *)
Inductive ModeSemantics := FirstMode | UniqueMode.

Definition mode (sem : ModeSemantics) (data : list string) : option string :=
  match sem with
  | FirstMode =>
      match most_common_1 (Counter data) with
      | (k, _) :: _ => Some k
      | [] => None
      end
  | UniqueMode =>
      match _counts data with
      | [(k, _)] => Some k
      | _ => None
      end
  end.

(** What a counter built from [data] must hold: one entry per distinct
    element, with its number of occurrences. *)
Record counts_of (data : list string) (t : list (string * nat)) : Prop := {
  counts_nodup : NoDup (Py.keys t);
  counts_freq : forall k, freq t k = count_occ string_dec data k;
  counts_keys : forall k, In k (Py.keys t) <-> In k data
}.

(** [m] is a most frequent element of [data]. *)
Definition is_mode (data : list string) (m : string) : Prop :=
  In m data /\ forall x, count_occ string_dec data x <= count_occ string_dec data m.

(** [m] occurs in [data] strictly more often than anything else. *)
Definition is_unique_mode (data : list string) (m : string) : Prop :=
  In m data /\
  forall x, x <> m -> count_occ string_dec data x < count_occ string_dec data m.

End Statistics.

(** ** Detection config and label tables *)

Definition ROLLING_WINDOW : nat := 7.
Definition STABLE_THRESHOLD : nat := 3.

Definition EMOTION_MAP : list (string * string) :=
  [ ("happy", "happy"); ("sad", "sad"); ("neutral", "neutral"); ("angry", "angry");
    ("surprise", "surprise"); ("fear", "fear"); ("disgust", "disgust") ].

(** [EMOJI] and [MOOD_TEXT]: only their keys are used by the analyzer, the
    values (emoji glyphs, prompt texts) are left out. *)
Definition EMOJI : list (string * unit) :=
  [ ("happy", tt); ("sad", tt); ("neutral", tt); ("angry", tt);
    ("surprise", tt); ("fear", tt); ("disgust", tt) ].

Definition MOOD_TEXT : list (string * unit) :=
  [ ("happy", tt); ("sad", tt); ("neutral", tt); ("angry", tt);
    ("surprise", tt); ("fear", tt); ("disgust", tt) ].

(** The closed set of raw labels. *)
Definition LABELS : list string :=
  [ "happy"; "sad"; "neutral"; "angry"; "surprise"; "fear"; "disgust" ].

Definition is_label (l : string) : Prop := In l LABELS.

Definition is_labelb (l : string) : bool := existsb (String.eqb l) LABELS.

(** ** The external classifier *)

(** The dict that [_predict] reads after [DeepFace.analyze] returned (and
    after [res = res[0]] when a list came back): the value under
    ['dominant_emotion'] ([None] when the key is absent or holds [None]) and
    the dict under ['emotion'] (empty when absent). *)
Record AnalysisResult := {
  dominant_emotion : option string;
  emotion : list (string * Py.float)
}.

(** What the body of the [try] does on a frame: it raises an [Exception]
    somewhere ([cvtColor], [DeepFace.analyze], an empty result list, a value
    of the wrong type), or it reads a result. *)
Inductive AnalyzeOutcome :=
| Raises
| Returns (res : AnalysisResult).

(** A captured frame, represented by what the classifier does on it. *)
Record Frame := { analyze : AnalyzeOutcome }.

(** ** The analyzer *)

Record EmotionAnalyzer := {
  window : list string;
  running : bool;
  paused : bool;
  stable_emotion : option string
}.

(** [EmotionAnalyzer.__init__]. *)
Definition init : EmotionAnalyzer :=
  {| window := []; running := true; paused := false; stable_emotion := None |}.

Definition get_stable (s : EmotionAnalyzer) : option string := stable_emotion s.

Definition pause (s : EmotionAnalyzer) : EmotionAnalyzer :=
  {| window := window s; running := running s; paused := true;
     stable_emotion := stable_emotion s |}.

Definition resume (s : EmotionAnalyzer) : EmotionAnalyzer :=
  {| window := Deque.clear (window s); running := running s; paused := false;
     stable_emotion := None |}.

Definition stop (s : EmotionAnalyzer) : EmotionAnalyzer :=
  {| window := window s; running := false; paused := paused s;
     stable_emotion := stable_emotion s |}.

(** [sum(1 for x in window if x == mode_val)]. *)
Definition count_mode (w : list string) (mode_val : string) : nat :=
  list_sum (map (fun _ => 1) (filter (fun x => String.eqb x mode_val) w)).

Section Analyzer.

(** The interpreter's [statistics.mode] and the import-time flag. *)
Variable sem : Statistics.ModeSemantics.
Variable DEEPFACE_AVAILABLE : bool.

(** [EmotionAnalyzer._predict]. *)
Definition _predict (frame_bgr : Frame) (rnd : nat) : string :=
  let demo := Py.random_choice rnd (Py.keys MOOD_TEXT) in
  if DEEPFACE_AVAILABLE then
    match analyze frame_bgr with
    | Raises => Py.random_choice rnd (Py.keys EMOJI)
    | Returns res =>
        let dom := dominant_emotion res in
        let falsy := match dom with Some d => negb (Py.truthy d) | None => true end in
        let dom :=
          if falsy then
            match emotion res with
            | [] => dom
            | it :: rest => Some (Py.max_key it rest)
            end
          else dom in
        match dom with
        | Some d =>
            if Py.truthy d then Py.dict_get EMOTION_MAP (Py.lower d) "neutral"
            else demo
        | None => demo
        end
    end
  else demo.

(** The block of [run] held under the lock: append the prediction, take
    the mode of the window, promote it when it is frequent enough.  This is
    the tracker's [record]. *)
Definition record (s : EmotionAnalyzer) (pred : string) : EmotionAnalyzer :=
  let window' := Deque.append ROLLING_WINDOW (window s) pred in
  let stable' :=
    match Statistics.mode sem window' with
    | Some mode_val =>
        if Py.truthy mode_val then
          if (STABLE_THRESHOLD <=? count_mode window' mode_val)%nat
          then Some mode_val
          else stable_emotion s
        else stable_emotion s
    | None => stable_emotion s
    end in
  {| window := window'; running := running s; paused := paused s;
     stable_emotion := stable' |}.

(** One pass through the body of [while self.running] in [run], the frame
    provider's answer and the random draw given as inputs. *)
Definition tick (s : EmotionAnalyzer) (frame : option Frame) (rnd : nat) : EmotionAnalyzer :=
  if negb (running s) then s
  else if paused s then s
  else
    match frame with
    | None => s
    | Some f => record s (_predict f rnd)
    end.

Definition ticks (s : EmotionAnalyzer) (inputs : list (option Frame * nat)) : EmotionAnalyzer :=
  fold_left (fun s i => tick s (fst i) (snd i)) inputs s.

Definition records (s : EmotionAnalyzer) (labels : list string) : EmotionAnalyzer :=
  fold_left record labels s.

(** *** The two threads

    [run] reads [self.paused] and calls [_predict] outside the lock, so the
    GUI thread's [pause], [resume] and [stop] can fall between the test at
    the head of the loop and the locked block.  The analyzer thread is
    either at the head of the loop or holds a prediction it has not yet
    recorded. *)
Inductive Pc :=
| AtLoopHead
| Predicted (pred : string).

Record System := {
  analyzer : EmotionAnalyzer;
  pc : Pc
}.

Inductive Event :=
| LoopHead (frame : option Frame) (rnd : nat)
| Commit
| CallPause
| CallResume
| CallStop.

Definition on_analyzer (f : EmotionAnalyzer -> EmotionAnalyzer) (sys : System) : System :=
  {| analyzer := f (analyzer sys); pc := pc sys |}.

Definition step (sys : System) (e : Event) : System :=
  match e with
  | LoopHead frame rnd =>
      match pc sys with
      | AtLoopHead =>
          let s := analyzer sys in
          if negb (running s) then sys
          else if paused s then sys
          else
            match frame with
            | None => sys
            | Some f => {| analyzer := s; pc := Predicted (_predict f rnd) |}
            end
      | Predicted _ => sys
      end
  | Commit =>
      match pc sys with
      | AtLoopHead => sys
      | Predicted pred => {| analyzer := record (analyzer sys) pred; pc := AtLoopHead |}
      end
  | CallPause => on_analyzer pause sys
  | CallResume => on_analyzer resume sys
  | CallStop => on_analyzer stop sys
  end.

Definition exec (sys : System) (es : list Event) : System := fold_left step es sys.

Definition start : System := {| analyzer := init; pc := AtLoopHead |}.

End Analyzer.

(** ** Scenarios and statements used below *)

(** A frame on which the classifier reports [l] as the dominant emotion. *)
Definition frame_saying (l : string) : Frame :=
  {| analyze := Returns {| dominant_emotion := Some l; emotion := [] |} |}.

(** A frame on which the classifier raises. *)
Definition frame_failing : Frame := {| analyze := Raises |}.

(** A frame on which the classifier returns a dict with nothing usable. *)
Definition frame_unusable : Frame :=
  {| analyze := Returns {| dominant_emotion := None; emotion := [] |} |}.

(** The loop runs once to the end on frame [f]. *)
Definition iteration (f : Frame) (rnd : nat) : list Event :=
  [LoopHead (Some f) rnd; Commit].

Definition scenario_tie : list string :=
  ["happy"; "sad"; "happy"; "neutral"; "happy"; "sad"; "sad"].

Definition scenario_slide : list string :=
  ["happy"; "happy"; "happy"; "sad"; "neutral"; "angry"; "fear"; "surprise"].

Definition scenario_outvoted : list string :=
  ["sad"; "sad"; "sad"; "happy"; "happy"; "happy"].

(** The verdict, when there is one, is a label that now occurs at least
    [STABLE_THRESHOLD] times in the window and is a mode of the window. *)
Definition verdict_backed_now (s : EmotionAnalyzer) : Prop :=
  stable_emotion s <> None ->
  exists l, STABLE_THRESHOLD <= count_occ string_dec (window s) l /\
            Statistics.is_mode (window s) l.

(** Recording [labels], at most a window's worth of them and at least
    [STABLE_THRESHOLD] of them equal to [l], makes [l] the verdict. *)
Definition promoted_by_span
    (sem : Statistics.ModeSemantics) (s : EmotionAnalyzer)
    (labels : list string) (l : string) : Prop :=
  length labels <= ROLLING_WINDOW ->
  STABLE_THRESHOLD <= count_occ string_dec labels l ->
  get_stable (records sem s labels) = Some l.

(** The verdict is [None] or one of the seven labels. *)
Definition verdict_is_label (s : EmotionAnalyzer) : Prop :=
  match stable_emotion s with
  | Some v => is_label v
  | None => True
  end.

(** A prediction held by the analyzer thread is one of the seven labels. *)
Definition pending_is_label (p : Pc) : Prop :=
  match p with
  | Predicted pred => is_label pred
  | AtLoopHead => True
  end.

(** The events of recording [labels] one after the other: each iteration gets
    a frame on which the classifier reports the label. *)
Definition played (labels : list string) : list Event :=
  flat_map (fun l => iteration (frame_saying l) 0) labels.

(** The analyzer thread passes the head of its loop or records what it holds. *)
Definition loop_event (e : Event) : Prop :=
  match e with
  | LoopHead _ _ | Commit => True
  | _ => False
  end.

(** What holds of the analyzer and its thread at every point of a run. *)
Record well_formed (sys : System) : Prop := {
  wf_length : length (window (analyzer sys)) <= ROLLING_WINDOW;
  wf_labels : Forall is_label (window (analyzer sys));
  wf_verdict : verdict_is_label (analyzer sys);
  wf_pending : pending_is_label (pc sys)
}.

(** ** The rest of the program *)

(** The last [n] items of a list. *)
Definition last_n (n : nat) (l : list string) : list string :=
  skipn (length l - n) l.

Definition is_commit (e : Event) : bool :=
  match e with
  | Commit => true
  | _ => false
  end.

(** How many times the analyzer thread reaches the locked block. *)
Definition commits (es : list Event) : nat := length (filter is_commit es).

Module Gui.

(** [EMOJI], [MOOD_TEXT] and [FALLBACK_JOKES] with their values. *)
Definition EMOJI : list (string * string) :=
  [ ("happy", "😄"); ("sad", "😢"); ("neutral", "😐"); ("angry", "😡");
    ("surprise", "😲"); ("fear", "😨"); ("disgust", "🤢") ].

Definition MOOD_TEXT : list (string * (string * string)) :=
  [ ("happy", ("You're looking great!",
               "Shall I play your upbeat playlist or a quick game?"));
    ("sad", ("You look sad.",
             "Would you like me to play your playlist or tell a joke?"));
    ("neutral", ("Feeling neutral.",
                 "Want some music or a short game to spice things up?"));
    ("angry", ("You seem upset.",
               "Maybe calming music would help — want me to play it?"));
    ("surprise", ("Surprised!", "Want a fun fact or a quick game?"));
    ("fear", ("A bit anxious?", "Let's try a calm playlist or a joke."));
    ("disgust", ("Hmm — that's odd.", "Maybe music or a quick laugh will help.")) ].

Definition FALLBACK_JOKES : list string :=
  [ "Why don’t scientists trust atoms? Because they make up everything!";
    "I told my computer I needed a break, and it said: 'No problem — I'll go to sleep.'";
    "Why did the scarecrow win an award? Because he was outstanding in his field!" ].

(** What [on_new_emotion] writes to the labels and says. *)
Record View := {
  emoji_lbl : string;
  title_lbl : string;
  subtitle_lbl : string;
  status_label : string;
  spoken : string
}.

Definition on_new_emotion_view (mood : string) : View :=
  let emoji := Py.dict_get EMOJI mood "😐" in
  let text := Py.dict_get MOOD_TEXT mood (Py.dict_get MOOD_TEXT "neutral" ("", "")) in
  let title := fst text in
  let subtitle := snd text in
  {| emoji_lbl := emoji;
     title_lbl := title;
     subtitle_lbl := subtitle;
     status_label := "Status: Detected '" ++ mood ++ "'";
     spoken := title ++ " " ++ subtitle ++
               " Would you like me to play music, tell a joke or play a game?" |}.

(** The joke [show_joke_window] displays: [get_joke] is what
    [pyjokes.get_joke()] does, [None] when it raises. *)
Definition show_joke_window (JOKES_AVAILABLE : bool) (get_joke : option string) (rnd : nat) : string :=
  if JOKES_AVAILABLE then
    match get_joke with
    | Some joke => joke
    | None => Py.random_choice rnd FALLBACK_JOKES
    end
  else Py.random_choice rnd FALLBACK_JOKES.

End Gui.

(** *** Rock, paper, scissors *)

Module Rps.

Definition moves : list string := ["Rock"; "Paper"; "Scissors"].

(** The branch [play] takes. *)
Inductive Outcome := Tie | Win | Lose.

Definition outcome (user comp : string) : Outcome :=
  if String.eqb user comp then Tie
  else if (String.eqb user "Rock" && String.eqb comp "Scissors")
          || (String.eqb user "Paper" && String.eqb comp "Rock")
          || (String.eqb user "Scissors" && String.eqb comp "Paper")
  then Win
  else Lose.

(** The text [play] shows and speaks. *)
Definition res (user comp : string) : string :=
  match outcome user comp with
  | Tie => "Tie — both " ++ user
  | Win => "You win! " ++ user ++ " beats " ++ comp
  | Lose => "You lose — " ++ comp ++ " beats " ++ user
  end.

Definition play (user : string) (rnd : nat) : string :=
  let comp := Py.random_choice rnd moves in
  res user comp.

End Rps.

(** *** The reaction gate of the GUI

    [check_stable_periodic] polls the analyzer from the GUI thread.  Clock
    readings are floats in the program; they are kept abstract here, with the
    test [now - self.last_trigger > 1.0] as [elapsed now last] and the
    initial [last_trigger = 0] as [epoch]. *)

Section ReactionGate.

Variable Time : Type.
Variable elapsed : Time -> Time -> bool.
Variable epoch : Time.
Variable sem : Statistics.ModeSemantics.
Variable DEEPFACE_AVAILABLE : bool.

(** The fields of [MoodMateApp] the gate uses, and the calls of
    [on_new_emotion] made so far, each with the clock reading of its poll. *)
Record MoodMateApp := {
  the_analyzer : System;
  current_displayed : option string;
  last_trigger : Time;
  reactions : list (Time * string)
}.

(** [stable != self.current_displayed]. *)
Definition differs (stable : string) (displayed : option string) : bool :=
  match displayed with
  | Some d => negb (String.eqb stable d)
  | None => true
  end.

Definition check_stable_periodic (now : Time) (app : MoodMateApp) : MoodMateApp :=
  match get_stable (analyzer (the_analyzer app)) with
  | Some stable =>
      if Py.truthy stable && differs stable (current_displayed app) then
        if elapsed now (last_trigger app) then
          {| the_analyzer := on_analyzer pause (the_analyzer app);
             current_displayed := Some stable;
             last_trigger := now;
             reactions := reactions app ++ [(now, stable)] |}
        else app
      else app
  | None => app
  end.

Definition resume_detection (app : MoodMateApp) : MoodMateApp :=
  {| the_analyzer := on_analyzer resume (the_analyzer app);
     current_displayed := None;
     last_trigger := last_trigger app;
     reactions := reactions app |}.

Definition pause_detection (app : MoodMateApp) : MoodMateApp :=
  {| the_analyzer := on_analyzer pause (the_analyzer app);
     current_displayed := current_displayed app;
     last_trigger := last_trigger app;
     reactions := reactions app |}.

(** [close], as far as the analyzer goes. *)
Definition close (app : MoodMateApp) : MoodMateApp :=
  {| the_analyzer := on_analyzer stop (the_analyzer app);
     current_displayed := current_displayed app;
     last_trigger := last_trigger app;
     reactions := reactions app |}.

Inductive AppEvent :=
| Thread (e : Event)
| Poll (now : Time)
| ClickResume
| ClickPause
| CloseWindow.

(** The analyzer thread only ever passes its loop head or commits; the
    other analyzer calls come from the GUI handlers. *)
Definition app_step (app : MoodMateApp) (e : AppEvent) : MoodMateApp :=
  match e with
  | Thread (LoopHead frame rnd) =>
      {| the_analyzer := step sem DEEPFACE_AVAILABLE (the_analyzer app) (LoopHead frame rnd);
         current_displayed := current_displayed app;
         last_trigger := last_trigger app;
         reactions := reactions app |}
  | Thread Commit =>
      {| the_analyzer := step sem DEEPFACE_AVAILABLE (the_analyzer app) Commit;
         current_displayed := current_displayed app;
         last_trigger := last_trigger app;
         reactions := reactions app |}
  | Thread _ => app
  | Poll now => check_stable_periodic now app
  | ClickResume => resume_detection app
  | ClickPause => pause_detection app
  | CloseWindow => close app
  end.

Definition app_exec (app : MoodMateApp) (es : list AppEvent) : MoodMateApp :=
  fold_left app_step es app.

(** [MoodMateApp.__init__], after the analyzer thread was started. *)
Definition app_start : MoodMateApp :=
  {| the_analyzer := start; current_displayed := None; last_trigger := epoch;
     reactions := [] |}.

Definition is_thread_commit (e : AppEvent) : bool :=
  match e with
  | Thread Commit => true
  | _ => false
  end.

Definition app_commits (es : list AppEvent) : nat :=
  length (filter is_thread_commit es).

(** Each reaction passed the clock test against the one before it. *)
Fixpoint spaced (last : Time) (log : list (Time * string)) : Prop :=
  match log with
  | [] => True
  | (t, _) :: log' => elapsed t last = true /\ spaced t log'
  end.

(** The clock reading of the last reaction, [last] when there is none. *)
Definition last_time (last : Time) (log : list (Time * string)) : Time :=
  fold_left (fun _ r => fst r) log last.

End ReactionGate.

Arguments the_analyzer {Time} _.
Arguments current_displayed {Time} _.
Arguments last_trigger {Time} _.
Arguments reactions {Time} _.
Arguments check_stable_periodic {Time} elapsed now app.
Arguments resume_detection {Time} app.
Arguments pause_detection {Time} app.
Arguments close {Time} app.
Arguments Thread {Time} e.
Arguments Poll {Time} now.
Arguments ClickResume {Time}.
Arguments ClickPause {Time}.
Arguments CloseWindow {Time}.
Arguments app_step {Time} elapsed sem DEEPFACE_AVAILABLE app e.
Arguments app_exec {Time} elapsed sem DEEPFACE_AVAILABLE app es.
Arguments app_start {Time} epoch.
Arguments is_thread_commit {Time} e.
Arguments app_commits {Time} es.
Arguments spaced {Time} elapsed last log.
Arguments last_time {Time} last log.

(** *** The poll in its two lock acquisitions

    [check_stable_periodic] takes the analyzer's lock twice: in
    [get_stable()] when it reads the verdict, and in [pause()] at the end of
    [on_new_emotion], after the labels were set and the speech thread was
    started.  The analyzer thread can run in between.  The GUI thread is
    either idle (in the Tk main loop) or inside a reaction that has not
    paused the analyzer yet. *)

Section PollSteps.

Variable Time : Type.
Variable elapsed : Time -> Time -> bool.
Variable sem : Statistics.ModeSemantics.
Variable DEEPFACE_AVAILABLE : bool.

Inductive GuiPc :=
| GuiIdle
| InReaction (now : Time).

Record Desktop := {
  the_app : MoodMateApp Time;
  gui_pc : GuiPc
}.

Inductive FineEvent :=
| FThread (e : Event)
| PollRead (now : Time)
| PollPause
| FClickResume
| FClickPause
| FCloseWindow.

(** Button handlers and polls run only when the GUI thread is idle. *)
Definition when_idle (f : MoodMateApp Time -> MoodMateApp Time) (d : Desktop) : Desktop :=
  match gui_pc d with
  | GuiIdle => {| the_app := f (the_app d); gui_pc := GuiIdle |}
  | InReaction _ => d
  end.

Definition fine_step (d : Desktop) (e : FineEvent) : Desktop :=
  match e with
  | FThread te =>
      {| the_app := app_step elapsed sem DEEPFACE_AVAILABLE (the_app d) (Thread te);
         gui_pc := gui_pc d |}
  | PollRead now =>
      match gui_pc d with
      | GuiIdle =>
          let app := the_app d in
          match get_stable (analyzer (the_analyzer app)) with
          | Some stable =>
              if Py.truthy stable && differs stable (current_displayed app) then
                if elapsed now (last_trigger app) then
                  {| the_app :=
                       {| the_analyzer := the_analyzer app;
                          current_displayed := Some stable;
                          last_trigger := last_trigger app;
                          reactions := reactions app ++ [(now, stable)] |};
                     gui_pc := InReaction now |}
                else d
              else d
          | None => d
          end
      | InReaction _ => d
      end
  | PollPause =>
      match gui_pc d with
      | InReaction now =>
          {| the_app :=
               {| the_analyzer := on_analyzer pause (the_analyzer (the_app d));
                  current_displayed := current_displayed (the_app d);
                  last_trigger := now;
                  reactions := reactions (the_app d) |};
             gui_pc := GuiIdle |}
      | GuiIdle => d
      end
  | FClickResume => when_idle resume_detection d
  | FClickPause => when_idle pause_detection d
  | FCloseWindow => when_idle close d
  end.

Definition fine_exec (d : Desktop) (es : list FineEvent) : Desktop :=
  fold_left fine_step es d.

End PollSteps.

Arguments GuiIdle {Time}.
Arguments InReaction {Time} now.
Arguments the_app {Time} _.
Arguments gui_pc {Time} _.
Arguments Build_Desktop {Time} _ _.
Arguments FThread {Time} e.
Arguments PollRead {Time} now.
Arguments PollPause {Time}.
Arguments FClickResume {Time}.
Arguments FClickPause {Time}.
Arguments FCloseWindow {Time}.
Arguments when_idle {Time} f d.
Arguments fine_step {Time} elapsed sem DEEPFACE_AVAILABLE d e.
Arguments fine_exec {Time} elapsed sem DEEPFACE_AVAILABLE d es.

(** * Properties *)

(** ** The library functions *)

Section DequeFacts.

Variables (maxlen : nat) (d : list string) (x : string).

Lemma deque_append_below :
  length d < maxlen -> Deque.append maxlen d x = d ++ [x].
Proof.
  intros Hlt. unfold Deque.append.
  destruct (Nat.ltb_spec maxlen (length (d ++ [x]))) as [H|H]; [|reflexivity].
  rewrite length_app in H. simpl in H. lia.
Qed.

Lemma deque_append_full :
  length d = maxlen -> 0 < maxlen -> Deque.append maxlen d x = tl d ++ [x].
Proof.
  intros Hlen Hpos. unfold Deque.append.
  destruct (Nat.ltb_spec maxlen (length (d ++ [x]))) as [H|H].
  - destruct d as [|a d']; [simpl in Hlen; lia | reflexivity].
  - rewrite length_app in H. simpl in H. lia.
Qed.

Lemma deque_append_bounded :
  length d <= maxlen -> length (Deque.append maxlen d x) <= maxlen.
Proof.
  intros Hle. unfold Deque.append.
  destruct (Nat.ltb_spec maxlen (length (d ++ [x]))) as [H|H]; [|exact H].
  rewrite length_app in H. simpl in H.
  destruct d as [|a d']; simpl in *; [lia|].
  rewrite length_app. simpl. lia.
Qed.

Lemma deque_append_In (y : string) :
  In y (Deque.append maxlen d x) -> In y d \/ y = x.
Proof.
  unfold Deque.append. intros H.
  assert (Hin : In y (d ++ [x])).
  { destruct (maxlen <? length (d ++ [x])); [|exact H].
    destruct (d ++ [x]); [destruct H | right; exact H]. }
  apply in_app_or in Hin. destruct Hin as [Hin|[Hin|[]]]; auto.
Qed.

End DequeFacts.

Lemma count_mode_count_occ (w : list string) (m : string) :
  count_mode w m = count_occ string_dec w m.
Proof.
  unfold count_mode. induction w as [|a w IH]; [reflexivity|].
  simpl. destruct (String.eqb_spec a m) as [E|E];
    destruct (string_dec a m) as [E'|E']; try contradiction; simpl; lia.
Qed.

Module StatisticsFacts.
Import Statistics.

Lemma freq_incr (t : list (string * nat)) (e k : string) :
  freq (incr t e) k = if String.eqb e k then S (freq t k) else freq t k.
Proof.
  unfold freq. induction t as [|[k0 n0] t IH]; simpl.
  - destruct (String.eqb e k); reflexivity.
  - destruct (String.eqb_spec k0 e) as [E|E]; simpl.
    + subst k0. destruct (String.eqb e k); reflexivity.
    + destruct (String.eqb_spec k0 k) as [E1|E1].
      * subst k0. destruct (String.eqb_spec e k); [congruence | reflexivity].
      * exact IH.
Qed.

Lemma keys_incr_old (t : list (string * nat)) (e : string) :
  In e (Py.keys t) -> Py.keys (incr t e) = Py.keys t.
Proof.
  unfold Py.keys. induction t as [|[k0 n0] t IH]; simpl; [tauto|].
  intros [H|H]; destruct (String.eqb_spec k0 e) as [E|E]; simpl;
    try reflexivity; try contradiction.
  now rewrite IH.
Qed.

Lemma keys_incr_new (t : list (string * nat)) (e : string) :
  ~ In e (Py.keys t) -> Py.keys (incr t e) = Py.keys t ++ [e].
Proof.
  unfold Py.keys. induction t as [|[k0 n0] t IH]; simpl; [reflexivity|].
  intros H. destruct (String.eqb_spec k0 e) as [E|E]; simpl.
  - exfalso. apply H. now left.
  - rewrite IH; [reflexivity | tauto].
Qed.

Lemma In_freq (t : list (string * nat)) (k : string) :
  In k (Py.keys t) -> In (k, freq t k) t.
Proof.
  unfold Py.keys, freq. induction t as [|[k0 n0] t IH]; simpl; [tauto|].
  intros H. destruct (String.eqb_spec k0 k) as [E|E].
  - left. now subst.
  - right. apply IH. destruct H; [contradiction | assumption].
Qed.

Lemma NoDup_freq (t : list (string * nat)) (k : string) (n : nat) :
  NoDup (Py.keys t) -> In (k, n) t -> freq t k = n.
Proof.
  unfold Py.keys, freq. induction t as [|[k0 n0] t IH]; simpl; [tauto|].
  intros Hnd Hin. inversion Hnd as [|? ? Hnotin Hnd']; subst.
  destruct Hin as [Heq|Hin].
  - inversion Heq; subst. now rewrite String.eqb_refl.
  - destruct (String.eqb_spec k0 k) as [E|E].
    + subst k0. exfalso. apply Hnotin. now apply (in_map fst) in Hin.
    + now apply IH.
Qed.

Lemma counts_of_incr (data : list string) (t : list (string * nat)) (e : string) :
  counts_of data t -> counts_of (data ++ [e]) (incr t e).
Proof.
  intros [Hnd Hfreq Hkeys]. split.
  - destruct (in_dec string_dec e (Py.keys t)) as [Hin|Hin].
    + now rewrite keys_incr_old.
    + rewrite keys_incr_new by assumption.
      apply NoDup_app; [assumption | repeat constructor; simpl; tauto |].
      intros a Ha [Hb|[]]. now subst.
  - intros k. rewrite freq_incr, count_occ_app, Hfreq. simpl.
    destruct (String.eqb_spec e k) as [E|E];
      destruct (string_dec e k) as [E'|E']; try contradiction; lia.
  - intros k. rewrite in_app_iff. simpl.
    destruct (in_dec string_dec e (Py.keys t)) as [Hin|Hin].
    + rewrite keys_incr_old by assumption. rewrite Hkeys.
      split; [tauto|]. intros [H|[H|[]]]; [assumption|]. subst. now apply Hkeys.
    + rewrite keys_incr_new by assumption. rewrite in_app_iff, Hkeys. simpl. tauto.
Qed.

Lemma counts_of_fold (data pre : list string) (t : list (string * nat)) :
  counts_of pre t -> counts_of (pre ++ data) (fold_left incr data t).
Proof.
  revert pre t. induction data as [|e data IH]; intros pre t H; simpl.
  - now rewrite app_nil_r.
  - replace (pre ++ e :: data) with ((pre ++ [e]) ++ data)
      by (now rewrite <- app_assoc).
    apply IH. now apply counts_of_incr.
Qed.

Lemma Counter_counts (data : list string) : counts_of data (Counter data).
Proof.
  apply (counts_of_fold data [] []). split; simpl.
  - constructor.
  - reflexivity.
  - tauto.
Qed.

Lemma Counter_entry (data : list string) (k : string) (n : nat) :
  In (k, n) (Counter data) -> In k data /\ n = count_occ string_dec data k.
Proof.
  intros Hin. destruct (Counter_counts data) as [Hnd Hfreq Hkeys]. split.
  - apply Hkeys. now apply (in_map fst) in Hin.
  - rewrite <- Hfreq. symmetry. now apply NoDup_freq.
Qed.

Lemma Counter_has (data : list string) (k : string) :
  In k data -> In (k, count_occ string_dec data k) (Counter data).
Proof.
  intros Hin. destruct (Counter_counts data) as [Hnd Hfreq Hkeys].
  rewrite <- Hfreq. apply In_freq. now apply Hkeys.
Qed.

Lemma max_count_spec (best : string * nat) (items : list (string * nat)) :
  In (max_count best items) (best :: items) /\
  forall it, In it (best :: items) -> snd it <= snd (max_count best items).
Proof.
  revert best. induction items as [|a items IH]; intros best; simpl.
  - split; [now left|]. intros it [H|[]]. now subst.
  - destruct (Nat.ltb_spec (snd best) (snd a)) as [Hlt|Hge].
    + destruct (IH a) as [Hin Hmax]. split.
      * right. exact Hin.
      * intros it [H|H].
        -- subst it. specialize (Hmax a (or_introl eq_refl)). lia.
        -- now apply Hmax.
    + destruct (IH best) as [Hin Hmax]. split.
      * destruct Hin as [Hin|Hin]; [now left | right; now right].
      * intros it [H|[H|H]].
        -- subst it. apply Hmax. now left.
        -- subst it. specialize (Hmax best (or_introl eq_refl)). lia.
        -- apply Hmax. now right.
Qed.

Lemma fold_max_upper (l : list nat) (v : nat) :
  In v l -> v <= fold_right Nat.max 0 l.
Proof.
  induction l as [|a l IH]; simpl; [tauto|].
  intros [H|H]; [subst; lia | specialize (IH H); lia].
Qed.

Lemma fold_max_In (l : list nat) :
  l <> [] -> In (fold_right Nat.max 0 l) l.
Proof.
  induction l as [|a l IH]; [congruence|]. intros _. simpl.
  destruct l as [|b l].
  - left. simpl. lia.
  - destruct (Nat.max_spec a (fold_right Nat.max 0 (b :: l))) as [[_ E]|[_ E]];
      rewrite E; [right; apply IH; congruence | now left].
Qed.

Lemma NoDup_all_same {A : Type} (l : list A) (x : A) :
  NoDup l -> (forall y, In y l -> y = x) -> In x l -> l = [x].
Proof.
  intros Hnd Hall Hin. destruct l as [|a l]; [destruct Hin|].
  assert (a = x) by (apply Hall; now left). subst a.
  destruct l as [|b l]; [reflexivity|].
  assert (b = x) by (apply Hall; right; now left). subst b.
  inversion Hnd as [|? ? Hnotin _]. exfalso. apply Hnotin. now left.
Qed.

(** Whatever [statistics.mode] returns is a most frequent element. *)
Lemma mode_is_mode (sem : ModeSemantics) (data : list string) (m : string) :
  mode sem data = Some m -> is_mode data m.
Proof.
  destruct sem; unfold mode.
  - unfold most_common_1. destruct (Counter data) as [|it rest] eqn:Et; [discriminate|].
    destruct (max_count it rest) as [k c] eqn:Em. intros H. inversion H; subst k.
    destruct (max_count_spec it rest) as [Hin Hmax]. rewrite Em in Hin, Hmax.
    rewrite <- Et in Hin, Hmax.
    apply Counter_entry in Hin. destruct Hin as [Hin Hc]. split; [assumption|].
    intros x. destruct (in_dec string_dec x data) as [Hx|Hx].
    + specialize (Hmax _ (Counter_has data x Hx)). simpl in Hmax. lia.
    + apply (count_occ_not_In string_dec) in Hx. lia.
  - unfold _counts.
    set (maxfreq := fold_right Nat.max 0 (map snd (Counter data))).
    destruct (filter _ (Counter data)) as [|[k c] [|? ?]] eqn:Ef; try discriminate.
    intros H. inversion H; subst k.
    assert (Hin : In (m, c) (filter (fun it => snd it =? maxfreq) (Counter data)))
      by (rewrite Ef; now left).
    apply filter_In in Hin. destruct Hin as [Hin Hc]. simpl in Hc.
    apply Nat.eqb_eq in Hc.
    apply Counter_entry in Hin. destruct Hin as [Hin Hc']. split; [assumption|].
    intros x. destruct (in_dec string_dec x data) as [Hx|Hx].
    + rewrite <- Hc', Hc. apply fold_max_upper.
      change (count_occ string_dec data x)
        with (snd (x, count_occ string_dec data x)).
      apply in_map. now apply Counter_has.
    + apply (count_occ_not_In string_dec) in Hx. lia.
Qed.

(** An element strictly more frequent than all others is what
    [statistics.mode] returns, in either Python. *)
Lemma mode_of_unique_mode (sem : ModeSemantics) (data : list string) (m : string) :
  is_unique_mode data m -> mode sem data = Some m.
Proof.
  intros [Hin Hstrict]. pose proof (Counter_has data m Hin) as Hm.
  destruct sem; unfold mode.
  - unfold most_common_1. destruct (Counter data) as [|it rest] eqn:Et; [destruct Hm|].
    destruct (max_count_spec it rest) as [Hr Hmax]. rewrite <- Et in Hr.
    specialize (Hmax _ Hm).
    destruct (max_count it rest) as [k c].
    apply Counter_entry in Hr. destruct Hr as [_ Hc]. simpl in Hmax.
    destruct (string_dec k m) as [E|E]; [now subst|].
    specialize (Hstrict k E). lia.
  - unfold _counts.
    set (maxfreq := fold_right Nat.max 0 (map snd (Counter data))).
    assert (Hmaxfreq : maxfreq = count_occ string_dec data m).
    { assert (Hne : map snd (Counter data) <> []).
      { destruct (Counter data); [destruct Hm | discriminate]. }
      apply fold_max_In in Hne. fold maxfreq in Hne.
      apply in_map_iff in Hne. destruct Hne as [[k c] [Hc Hk]]. simpl in Hc. subst c.
      apply Counter_entry in Hk. destruct Hk as [_ Hk].
      assert (Hle : count_occ string_dec data m <= maxfreq).
      { apply fold_max_upper.
        change (count_occ string_dec data m)
          with (snd (m, count_occ string_dec data m)).
        now apply in_map. }
      destruct (string_dec k m) as [E|E]; [now subst|].
      specialize (Hstrict k E). lia. }
    rewrite (NoDup_all_same
               (filter (fun it => snd it =? maxfreq) (Counter data))
               (m, count_occ string_dec data m)); [reflexivity | | |].
    + apply NoDup_filter. apply (NoDup_map_inv fst).
      apply (counts_nodup _ _ (Counter_counts data)).
    + intros [k c] Hk. apply filter_In in Hk. destruct Hk as [Hk Hc].
      simpl in Hc. apply Nat.eqb_eq in Hc.
      apply Counter_entry in Hk. destruct Hk as [_ Hk].
      destruct (string_dec k m) as [E|E]; [subst; congruence|].
      specialize (Hstrict k E). lia.
    + apply filter_In. split; [assumption|]. simpl. now apply Nat.eqb_eq.
Qed.

(** Python 3.8 and later: every non-empty list has a mode. *)
Lemma mode_first_total (data : list string) :
  data <> [] -> exists m, mode FirstMode data = Some m.
Proof.
  intros Hne. unfold mode, most_common_1.
  destruct (Counter data) as [|it rest] eqn:Et.
  - destruct data as [|a data]; [congruence|].
    pose proof (Counter_has (a :: data) a (or_introl eq_refl)) as H.
    rewrite Et in H. destruct H.
  - destruct (max_count it rest) as [k c]. now exists k.
Qed.

Lemma mode_empty (sem : ModeSemantics) : mode sem [] = None.
Proof. destruct sem; reflexivity. Qed.

End StatisticsFacts.

(** ** The tracker *)

Section TrackerFacts.

Variable sem : Statistics.ModeSemantics.
Variable DEEPFACE_AVAILABLE : bool.

Lemma label_truthy (l : string) : is_label l -> Py.truthy l = true.
Proof.
  unfold is_label, LABELS. simpl.
  intros H. repeat (destruct H as [H|H]; [subst l; reflexivity|]). destruct H.
Qed.

Lemma window_record (s : EmotionAnalyzer) (pred : string) :
  window (record sem s pred) = Deque.append ROLLING_WINDOW (window s) pred.
Proof. reflexivity. Qed.

Lemma window_record_nonempty (s : EmotionAnalyzer) (pred : string) :
  window (record sem s pred) <> [].
Proof.
  rewrite window_record. unfold Deque.append, ROLLING_WINDOW.
  destruct (Nat.ltb_spec 7 (length (window s ++ [pred]))) as [H|H].
  - destruct (window s) as [|a [|b w]]; simpl in *; try discriminate; lia.
  - destruct (window s); discriminate.
Qed.

Lemma records_snoc (s : EmotionAnalyzer) (ls : list string) (x : string) :
  records sem s (ls ++ [x]) = record sem (records sem s ls) x.
Proof. unfold records. now rewrite fold_left_app. Qed.

Lemma exec_snoc (sys : System) (es : list Event) (e : Event) :
  exec sem DEEPFACE_AVAILABLE sys (es ++ [e]) =
  step sem DEEPFACE_AVAILABLE (exec sem DEEPFACE_AVAILABLE sys es) e.
Proof. unfold exec. now rewrite fold_left_app. Qed.

(** The verdict after [record], with the count as a number of occurrences. *)
Lemma stable_record (s : EmotionAnalyzer) (pred : string) :
  stable_emotion (record sem s pred) =
  match Statistics.mode sem (window (record sem s pred)) with
  | Some m =>
      if Py.truthy m && (STABLE_THRESHOLD <=? count_occ string_dec (window (record sem s pred)) m)
      then Some m else stable_emotion s
  | None => stable_emotion s
  end.
Proof.
  unfold record at 1. simpl.
  destruct (Statistics.mode sem _) as [m|]; [|reflexivity].
  rewrite count_mode_count_occ. now destruct (Py.truthy m).
Qed.

Lemma record_keeps_labels (s : EmotionAnalyzer) (pred : string) :
  Forall is_label (window s) -> is_label pred ->
  Forall is_label (window (record sem s pred)).
Proof.
  intros Hw Hp. rewrite window_record. apply Forall_forall. intros y Hy.
  apply deque_append_In in Hy. destruct Hy as [Hy|Hy]; [|now subst].
  rewrite Forall_forall in Hw. now apply Hw.
Qed.

Lemma record_verdict_label (s : EmotionAnalyzer) (pred : string) :
  Forall is_label (window s) -> is_label pred -> verdict_is_label s ->
  verdict_is_label (record sem s pred).
Proof.
  intros Hw Hp Hv. unfold verdict_is_label. rewrite stable_record.
  pose proof (record_keeps_labels s pred Hw Hp) as Hw'.
  destruct (Statistics.mode sem _) as [m|] eqn:Em; [|exact Hv].
  destruct (Py.truthy m && _); [|exact Hv].
  apply StatisticsFacts.mode_is_mode in Em. destruct Em as [Hin _].
  rewrite Forall_forall in Hw'. now apply Hw'.
Qed.

Lemma random_choice_In (rnd : nat) (seq : list string) :
  seq <> [] -> In (Py.random_choice rnd seq) seq.
Proof.
  intros Hne. unfold Py.random_choice. apply nth_In.
  apply Nat.mod_upper_bound. destruct seq; [congruence | discriminate].
Qed.

Lemma emotion_map_get (k : string) :
  Py.dict_get EMOTION_MAP k "neutral" = if is_labelb k then k else "neutral".
Proof.
  unfold EMOTION_MAP, is_labelb, LABELS. cbn [Py.dict_get existsb].
  repeat rewrite (String.eqb_sym k).
  repeat match goal with
         | |- context [String.eqb ?a k] =>
             destruct (String.eqb_spec a k) as [<-|_]; [reflexivity|]; cbn [orb]
         end.
  reflexivity.
Qed.

Lemma is_labelb_label (k : string) : is_labelb k = true -> is_label k.
Proof.
  unfold is_labelb, is_label. intros H. apply existsb_exists in H.
  destruct H as [x [Hin Heq]]. apply String.eqb_eq in Heq. now subst.
Qed.

Lemma emotion_map_label (k : string) :
  is_label (Py.dict_get EMOTION_MAP k "neutral").
Proof.
  rewrite emotion_map_get. destruct (is_labelb k) eqn:E.
  - now apply is_labelb_label.
  - unfold is_label, LABELS. simpl. tauto.
Qed.

Lemma predict_label (f : Frame) (rnd : nat) :
  is_label (_predict DEEPFACE_AVAILABLE f rnd).
Proof.
  assert (Hdemo : is_label (Py.random_choice rnd (Py.keys MOOD_TEXT)))
    by (apply random_choice_In; discriminate).
  unfold _predict. destruct DEEPFACE_AVAILABLE; [|exact Hdemo].
  destruct (analyze f) as [|res].
  - apply random_choice_In. discriminate.
  - match goal with
    | |- is_label (match ?dom with Some _ => _ | None => _ end) => destruct dom as [d|]
    end; [|exact Hdemo].
    destruct (Py.truthy d); [apply emotion_map_label | exact Hdemo].
Qed.

Lemma start_well_formed : well_formed start.
Proof.
  split; simpl.
  - unfold ROLLING_WINDOW. lia.
  - constructor.
  - exact I.
  - exact I.
Qed.

Lemma record_well_formed (sys : System) (pred : string) :
  well_formed sys -> is_label pred ->
  well_formed {| analyzer := record sem (analyzer sys) pred; pc := AtLoopHead |}.
Proof.
  intros [Hlen Hlab Hv Hp] Hpred. split; simpl.
  - now apply deque_append_bounded.
  - now apply record_keeps_labels.
  - now apply record_verdict_label.
  - exact I.
Qed.

Lemma step_well_formed (sys : System) (e : Event) :
  well_formed sys -> well_formed (step sem DEEPFACE_AVAILABLE sys e).
Proof.
  intros Hwf. destruct e as [frame rnd| | | |]; simpl.
  - destruct (pc sys) eqn:Epc; [|exact Hwf].
    destruct (negb (running (analyzer sys))); [exact Hwf|].
    destruct (paused (analyzer sys)); [exact Hwf|].
    destruct frame as [f|]; [|exact Hwf].
    destruct Hwf as [Hlen Hlab Hv Hp]. split; simpl; try assumption.
    apply predict_label.
  - destruct (pc sys) as [|pred] eqn:Epc; [exact Hwf|].
    apply record_well_formed; [exact Hwf|].
    destruct Hwf as [_ _ _ Hp]. now rewrite Epc in Hp.
  - destruct Hwf as [Hlen Hlab Hv Hp]. split; assumption.
  - destruct Hwf as [Hlen Hlab Hv Hp]. split; simpl.
    + lia.
    + constructor.
    + exact I.
    + assumption.
  - destruct Hwf as [Hlen Hlab Hv Hp]. split; assumption.
Qed.

Lemma exec_well_formed (sys : System) (es : list Event) :
  well_formed sys -> well_formed (exec sem DEEPFACE_AVAILABLE sys es).
Proof.
  revert sys. induction es as [|e es IH]; intros sys Hwf; simpl; [exact Hwf|].
  apply IH. now apply step_well_formed.
Qed.

(** An iteration that is not interrupted is [tick]. *)
Lemma iteration_is_tick (s : EmotionAnalyzer) (f : Frame) (rnd : nat) :
  exec sem DEEPFACE_AVAILABLE {| analyzer := s; pc := AtLoopHead |} (iteration f rnd) =
  {| analyzer := tick sem DEEPFACE_AVAILABLE s (Some f) rnd; pc := AtLoopHead |}.
Proof.
  unfold iteration, exec, tick. simpl.
  destruct (negb (running s)); [reflexivity|].
  destruct (paused s); reflexivity.
Qed.

(** Up to a window's worth of records are all still in the window. *)
Lemma window_records_suffix (s : EmotionAnalyzer) (ls : list string) :
  length ls <= ROLLING_WINDOW ->
  exists pre, window (records sem s ls) = pre ++ ls.
Proof.
  induction ls as [|x ls IH] using rev_ind; intros Hlen.
  - exists (window s). now rewrite app_nil_r.
  - rewrite length_app in Hlen. simpl in Hlen.
    destruct IH as [pre Hpre]; [lia|].
    rewrite records_snoc, window_record, Hpre. unfold Deque.append.
    destruct (Nat.ltb_spec ROLLING_WINDOW (length ((pre ++ ls) ++ [x]))) as [H|H].
    + destruct pre as [|a pre].
      * simpl in H. rewrite length_app in H. simpl in H. lia.
      * exists pre. simpl. now rewrite app_assoc.
    + exists pre. now rewrite app_assoc.
Qed.

(** Every event but a commit and a resume leaves the verdict alone. *)
Lemma step_verdict (sys : System) (e : Event) :
  e <> Commit -> e <> CallResume ->
  stable_emotion (analyzer (step sem DEEPFACE_AVAILABLE sys e)) =
  stable_emotion (analyzer sys).
Proof.
  intros Hc Hr. destruct e as [frame rnd| | | |]; simpl; try congruence.
  destruct (pc sys); [|reflexivity].
  destruct (negb (running (analyzer sys))); [reflexivity|].
  destruct (paused (analyzer sys)); [reflexivity|].
  destruct frame; reflexivity.
Qed.

Lemma tick_paused (s : EmotionAnalyzer) (frame : option Frame) (rnd : nat) :
  paused s = true -> tick sem DEEPFACE_AVAILABLE s frame rnd = s.
Proof.
  intros Hp. unfold tick. rewrite Hp. now destruct (negb (running s)).
Qed.

Lemma ticks_paused (s : EmotionAnalyzer) (inputs : list (option Frame * nat)) :
  paused s = true -> ticks sem DEEPFACE_AVAILABLE s inputs = s.
Proof.
  intros Hp. unfold ticks. induction inputs as [|i inputs IH]; [reflexivity|].
  simpl. now rewrite tick_paused.
Qed.

(** While paused, an analyzer thread at the head of its loop stays there
    and changes nothing. *)
Lemma paused_loop_idle (s : EmotionAnalyzer) (es : list Event) :
  paused s = true -> Forall loop_event es ->
  exec sem DEEPFACE_AVAILABLE {| analyzer := s; pc := AtLoopHead |} es =
  {| analyzer := s; pc := AtLoopHead |}.
Proof.
  intros Hp Hes. unfold exec. induction Hes as [|e es He _ IH]; [reflexivity|].
  simpl. destruct e as [frame rnd| | | |]; try destruct He; simpl.
  - rewrite Hp. destruct (negb (running s)); exact IH.
  - exact IH.
Qed.

(** A prediction already under way when [pause] is called is still
    recorded afterwards: the pause test is made before [_predict]. *)
Lemma pause_keeps_pending (s : EmotionAnalyzer) (pred : string) :
  exec sem DEEPFACE_AVAILABLE {| analyzer := s; pc := Predicted pred |} [CallPause; Commit] =
  {| analyzer := record sem (pause s) pred; pc := AtLoopHead |}.
Proof. reflexivity. Qed.

(** One record into an empty window sets no verdict. *)
Lemma single_record_no_verdict (s : EmotionAnalyzer) (l : string) :
  window s = [] -> stable_emotion s = None ->
  stable_emotion (record sem s l) = None.
Proof.
  intros Hw Hv. rewrite stable_record, window_record, Hw, Hv.
  destruct (Statistics.mode sem _) as [m|]; [|reflexivity].
  replace (STABLE_THRESHOLD <=? _) with false; [now rewrite andb_false_r|].
  symmetry. apply Nat.leb_gt.
  pose proof (count_occ_bound string_dec m (Deque.append ROLLING_WINDOW [] l)) as Hb.
  simpl in Hb. unfold STABLE_THRESHOLD. simpl. lia.
Qed.

End TrackerFacts.

(** ** The claims *)

(** C1. Recording a label appends it to the window, dropping the oldest entry
    when the window is full; the mode is taken of the new window; the verdict
    becomes that mode when it occurs at least [STABLE_THRESHOLD] times and is
    otherwise kept, so a verdict once set is never lost to [record].  An
    iteration of the loop on a running, unpaused analyzer is such a record.
    Under either [statistics.mode] a label that alone is the most frequent
    is the mode, and is the verdict when it occurs [STABLE_THRESHOLD] times. *)
Theorem record_appends_and_promotes
    (sem : Statistics.ModeSemantics) (s : EmotionAnalyzer) (pred : string)
    (Hwindow : Forall is_label (window s)) (Hpred : is_label pred) :
  let s' := record sem s pred in
  (length (window s) < ROLLING_WINDOW -> window s' = window s ++ [pred]) /\
  (length (window s) = ROLLING_WINDOW -> window s' = tl (window s) ++ [pred]) /\
  (forall m, Statistics.mode sem (window s') = Some m ->
             Statistics.is_mode (window s') m) /\
  Statistics.mode Statistics.FirstMode (window s') <> None /\
  stable_emotion s' =
    match Statistics.mode sem (window s') with
    | Some m =>
        if STABLE_THRESHOLD <=? count_occ string_dec (window s') m
        then Some m else stable_emotion s
    | None => stable_emotion s
    end /\
  (stable_emotion s <> None -> stable_emotion s' <> None) /\
  paused s' = paused s /\ running s' = running s /\
  (forall df f rnd, running s = true -> paused s = false ->
     tick sem df s (Some f) rnd = record sem s (_predict df f rnd)) /\
  (forall m, Statistics.is_unique_mode (window s') m ->
             Statistics.mode sem (window s') = Some m) /\
  (forall m, Statistics.is_unique_mode (window s') m ->
             STABLE_THRESHOLD <= count_occ string_dec (window s') m ->
             stable_emotion s' = Some m).
Proof.
  intros s'. subst s'.
  pose proof (record_keeps_labels sem s pred Hwindow Hpred) as Hlab.
  assert (Hstable :
    stable_emotion (record sem s pred) =
    match Statistics.mode sem (window (record sem s pred)) with
    | Some m =>
        if STABLE_THRESHOLD <=? count_occ string_dec (window (record sem s pred)) m
        then Some m else stable_emotion s
    | None => stable_emotion s
    end).
  { rewrite stable_record.
    destruct (Statistics.mode sem _) as [m|] eqn:Em; [|reflexivity].
    apply StatisticsFacts.mode_is_mode in Em. destruct Em as [Hin _].
    rewrite Forall_forall in Hlab. now rewrite (label_truthy m (Hlab m Hin)). }
  split; [intros Hlt; rewrite window_record; now apply deque_append_below|].
  split.
  { intros Hfull. rewrite window_record.
    apply deque_append_full; [assumption | unfold ROLLING_WINDOW; lia]. }
  split; [intros m Hm; now apply StatisticsFacts.mode_is_mode in Hm|].
  split.
  { destruct (StatisticsFacts.mode_first_total (window (record sem s pred))) as [m Hm].
    - apply window_record_nonempty.
    - congruence. }
  split; [exact Hstable|].
  split.
  { rewrite Hstable. intros Hsome.
    destruct (Statistics.mode sem _) as [m|]; [|exact Hsome].
    destruct (_ <=? _); [discriminate | exact Hsome]. }
  split; [reflexivity|]. split; [reflexivity|].
  split; [intros df f rnd Hrun Hpause; unfold tick; now rewrite Hrun, Hpause|].
  split; [intros m Hm; now apply StatisticsFacts.mode_of_unique_mode|].
  intros m Hm Hc. rewrite Hstable.
  rewrite (StatisticsFacts.mode_of_unique_mode sem _ _ Hm).
  apply Nat.leb_le in Hc. now rewrite Hc.
Qed.

Lemma record_appends_and_promotes_witness :
  let s := records Statistics.UniqueMode init ["happy"; "happy"] in
  Forall is_label (window s) /\ is_label "happy" /\
  window (record Statistics.UniqueMode s "happy") = ["happy"; "happy"; "happy"] /\
  Statistics.mode Statistics.UniqueMode (window (record Statistics.UniqueMode s "happy"))
    = Some "happy" /\
  stable_emotion (record Statistics.UniqueMode s "happy") = Some "happy".
Proof.
  intros s.
  assert (Hw : Forall is_label (window s))
    by (repeat constructor; unfold is_label; simpl; tauto).
  assert (Hp : is_label "happy") by (unfold is_label; simpl; tauto).
  pose proof (record_appends_and_promotes Statistics.UniqueMode s "happy" Hw Hp) as H.
  destruct H as [Happ [_ [_ [_ [Hst [_ [_ [_ [_ [Hmode _]]]]]]]]]].
  split; [exact Hw|]. split; [exact Hp|]. split; [|split].
  - apply Happ. vm_compute. lia.
  - apply Hmode. split; [vm_compute; tauto|].
    intros x Hx.
    replace (window (record Statistics.UniqueMode s "happy"))
      with (repeat "happy" 3) by reflexivity.
    rewrite count_occ_repeat_neq by assumption.
    rewrite count_occ_repeat_eq by reflexivity. lia.
  - rewrite Hst. reflexivity.
Defined.

(** C2. However record, pause, resume and stop are interleaved, and wherever
    the analyzer thread is in its loop, the window never holds more than
    [ROLLING_WINDOW] = 7 labels. *)
Theorem window_never_exceeds_capacity
    (sem : Statistics.ModeSemantics) (DEEPFACE_AVAILABLE : bool) (es : list Event) :
  ROLLING_WINDOW = 7 /\
  length (window (analyzer (exec sem DEEPFACE_AVAILABLE start es))) <= ROLLING_WINDOW.
Proof.
  split; [reflexivity|].
  apply (wf_length _ (exec_well_formed sem DEEPFACE_AVAILABLE start es start_well_formed)).
Qed.

(** C3, as stated, fails: the verdict outlives its support.  After three
    happy records and five records of five other labels the verdict is still
    happy although no label occurs three times in the window. *)
Lemma verdict_outlives_support :
  ~ verdict_backed_now
      (analyzer (exec Statistics.FirstMode true start (played scenario_slide))) /\
  ~ verdict_backed_now
      (analyzer (exec Statistics.UniqueMode true start (played scenario_slide))).
Proof.
  split; intros H.
  - destruct H as [l [Hc [Hin _]]]; [discriminate|].
    assert (E : window (analyzer (exec Statistics.FirstMode true start
                                    (played scenario_slide)))
                = ["happy"; "happy"; "sad"; "neutral"; "angry"; "fear"; "surprise"])
      by reflexivity.
    rewrite E in Hc, Hin. simpl in Hin.
    repeat (destruct Hin as [<-|Hin]; [vm_compute in Hc; lia|]). destruct Hin.
  - destruct H as [l [Hc [Hin _]]]; [discriminate|].
    assert (E : window (analyzer (exec Statistics.UniqueMode true start
                                    (played scenario_slide)))
                = ["happy"; "happy"; "sad"; "neutral"; "angry"; "fear"; "surprise"])
      by reflexivity.
    rewrite E in Hc, Hin. simpl in Hin.
    repeat (destruct Hin as [<-|Hin]; [vm_compute in Hc; lia|]). destruct Hin.
Qed.

(** C3, amended.  A verdict [v] at a reachable state was earned at some
    earlier point of the run with no resume since: at that point [v] was the
    mode of the window and occurred in it at least [STABLE_THRESHOLD] times. *)
Theorem verdict_backed_since_resume
    (sem : Statistics.ModeSemantics) (DEEPFACE_AVAILABLE : bool)
    (es : list Event) (v : string) :
  stable_emotion (analyzer (exec sem DEEPFACE_AVAILABLE start es)) = Some v ->
  exists pre post,
    es = pre ++ post /\ ~ In CallResume post /\
    let w := window (analyzer (exec sem DEEPFACE_AVAILABLE start pre)) in
    STABLE_THRESHOLD <= count_occ string_dec w v /\
    Statistics.mode sem w = Some v /\
    Statistics.is_mode w v.
Proof.
  induction es as [|e es IH] using rev_ind; [discriminate|].
  rewrite exec_snoc. intros Hv.
  assert (Hkeep :
    stable_emotion (analyzer (exec sem DEEPFACE_AVAILABLE start es)) = Some v ->
    e <> CallResume ->
    exists pre post,
      es ++ [e] = pre ++ post /\ ~ In CallResume post /\
      let w := window (analyzer (exec sem DEEPFACE_AVAILABLE start pre)) in
      STABLE_THRESHOLD <= count_occ string_dec w v /\
      Statistics.mode sem w = Some v /\ Statistics.is_mode w v).
  { intros Hold Hne. destruct (IH Hold) as [pre [post [Hes [Hno Hw]]]].
    exists pre, (post ++ [e]). split; [now rewrite Hes, app_assoc|].
    split; [|exact Hw].
    intros Hin. apply in_app_or in Hin. destruct Hin as [Hin|[Hin|[]]]; auto. }
  destruct e as [frame rnd| | | |].
  - apply Hkeep; [|discriminate]. now rewrite step_verdict in Hv.
  - unfold step in Hv.
    destruct (pc (exec sem DEEPFACE_AVAILABLE start es)) as [|pred] eqn:Epc.
    + apply Hkeep; [assumption | discriminate].
    + cbn [analyzer] in Hv. rewrite stable_record in Hv.
      destruct (Statistics.mode sem _) as [m|] eqn:Em;
        [|apply Hkeep; [assumption | discriminate]].
      destruct (Py.truthy m && _) eqn:Eb;
        [|apply Hkeep; [assumption | discriminate]].
      inversion Hv; subst m. apply andb_true_iff in Eb. destruct Eb as [_ Ec].
      apply Nat.leb_le in Ec.
      exists (es ++ [Commit]), []. split; [now rewrite app_nil_r|].
      split; [simpl; tauto|].
      rewrite exec_snoc. unfold step. rewrite Epc. cbn [analyzer]. cbv zeta.
      split; [exact Ec|]. split; [exact Em|].
      now apply StatisticsFacts.mode_is_mode in Em.
  - apply Hkeep; [|discriminate]. now rewrite step_verdict in Hv.
  - discriminate.
  - apply Hkeep; [|discriminate]. now rewrite step_verdict in Hv.
Qed.

Lemma verdict_backed_since_resume_witness :
  let es := played ["sad"; "sad"; "sad"] ++ [CallPause] in
  stable_emotion (analyzer (exec Statistics.UniqueMode true start es)) = Some "sad" /\
  exists pre post,
    es = pre ++ post /\ ~ In CallResume post /\
    let w := window (analyzer (exec Statistics.UniqueMode true start pre)) in
    STABLE_THRESHOLD <= count_occ string_dec w "sad" /\
    Statistics.mode Statistics.UniqueMode w = Some "sad" /\
    Statistics.is_mode w "sad".
Proof.
  intros es. split; [reflexivity|].
  apply (verdict_backed_since_resume Statistics.UniqueMode true es "sad").
  reflexivity.
Defined.

(** C4, as stated, fails: three happy records within six calls do not make
    happy the verdict when sad was recorded three times just before. *)
Lemma span_outvoted :
  ~ promoted_by_span Statistics.FirstMode init scenario_outvoted "happy" /\
  ~ promoted_by_span Statistics.UniqueMode init scenario_outvoted "happy".
Proof.
  split; intros H.
  - assert (E : get_stable (records Statistics.FirstMode init scenario_outvoted)
                = Some "happy")
      by (apply H; vm_compute; lia).
    vm_compute in E. discriminate.
  - assert (E : get_stable (records Statistics.UniqueMode init scenario_outvoted)
                = Some "happy")
      by (apply H; vm_compute; lia).
    vm_compute in E. discriminate.
Qed.

(** C4, amended.  When a label is recorded at least [STABLE_THRESHOLD] times
    within at most [ROLLING_WINDOW] consecutive records and, after the last
    of them, occurs in the window strictly more often than every other
    label, it is the verdict after the last of them. *)
Theorem unique_mode_promoted_by_span
    (sem : Statistics.ModeSemantics) (s : EmotionAnalyzer)
    (labels : list string) (l : string)
    (Hlabel : is_label l)
    (Hspan : length labels <= ROLLING_WINDOW)
    (Hcount : STABLE_THRESHOLD <= count_occ string_dec labels l)
    (Hmode : Statistics.is_unique_mode (window (records sem s labels)) l) :
  get_stable (records sem s labels) = Some l.
Proof.
  destruct (window_records_suffix sem s labels Hspan) as [pre Hpre].
  assert (Hc : STABLE_THRESHOLD <= count_occ string_dec (window (records sem s labels)) l)
    by (rewrite Hpre, count_occ_app; lia).
  apply (StatisticsFacts.mode_of_unique_mode sem) in Hmode.
  destruct labels as [|x labels] using rev_ind.
  - simpl in Hcount. unfold STABLE_THRESHOLD in Hcount. lia.
  - clear IHlabels. rewrite records_snoc in *. unfold get_stable.
    rewrite stable_record, Hmode, (label_truthy l Hlabel).
    apply Nat.leb_le in Hc. now rewrite Hc.
Qed.

Lemma unique_mode_promoted_by_span_witness :
  get_stable (records Statistics.UniqueMode init ["sad"; "happy"; "sad"; "sad"])
  = Some "sad".
Proof.
  apply unique_mode_promoted_by_span.
  - unfold is_label. simpl. tauto.
  - vm_compute. lia.
  - vm_compute. lia.
  - assert (E : window (records Statistics.UniqueMode init ["sad"; "happy"; "sad"; "sad"])
                = ["sad"; "happy"; "sad"; "sad"]) by reflexivity.
    rewrite E. split; [simpl; tauto|].
    intros x Hx. cbn [count_occ].
    destruct (string_dec "sad" "sad") as [_|Ne]; [|congruence].
    destruct (string_dec "happy" "sad") as [Ee|_]; [discriminate|].
    destruct (string_dec "sad" x) as [Es|_]; [congruence|].
    destruct (string_dec "happy" x); lia.
Defined.

(** C5. After [resume], whatever the state before, the analyzer is not
    paused, its window is empty and it has no verdict; one record after a
    resume leaves it without a verdict, in particular after a verdict of sad,
    a pause, a resume and one record of happy. *)
Theorem resume_starts_afresh
    (sem : Statistics.ModeSemantics) (DEEPFACE_AVAILABLE : bool) (s : EmotionAnalyzer) :
  paused (resume s) = false /\
  window (resume s) = [] /\
  get_stable (resume s) = None /\
  (forall l, get_stable (record sem (resume (pause s)) l) = None) /\
  (forall frame rnd,
     get_stable (tick sem DEEPFACE_AVAILABLE (resume (pause s)) frame rnd) = None) /\
  (let sad := records sem init ["sad"; "sad"; "sad"] in
   get_stable sad = Some "sad" /\
   get_stable (record sem (resume (pause sad)) "happy") = None).
Proof.
  assert (Hone : forall s0 l, get_stable (record sem (resume s0) l) = None)
    by (intros s0 l; unfold get_stable; apply single_record_no_verdict; reflexivity).
  split; [reflexivity|]. split; [reflexivity|]. split; [reflexivity|].
  split; [intros l; apply Hone|]. split.
  - intros frame rnd. unfold tick.
    destruct (negb _); [reflexivity|].
    destruct (paused _); [reflexivity|].
    destruct frame as [f|]; [apply Hone | reflexivity].
  - split; [destruct sem; reflexivity | apply Hone].
Qed.

(** [pause] sets the paused flag and keeps the window and the verdict; any
    number of loop iterations that begin on a paused analyzer change
    nothing. *)
Lemma pause_freezes_tracker
    (sem : Statistics.ModeSemantics) (DEEPFACE_AVAILABLE : bool)
    (s : EmotionAnalyzer) (inputs : list (option Frame * nat)) :
  paused (pause s) = true /\
  window (pause s) = window s /\
  get_stable (pause s) = get_stable s /\
  ticks sem DEEPFACE_AVAILABLE (pause s) inputs = pause s /\
  window (ticks sem DEEPFACE_AVAILABLE (pause s) inputs) = window s /\
  get_stable (ticks sem DEEPFACE_AVAILABLE (pause s) inputs) = get_stable s.
Proof.
  assert (H : ticks sem DEEPFACE_AVAILABLE (pause s) inputs = pause s)
    by (now apply ticks_paused).
  rewrite H. repeat split.
Qed.

(** C6, where the code departs from it.  [run] tests [self.paused] before
    [_predict] and outside the lock, and the locked block has no test of its
    own: a prediction under way when [pause] is called is recorded all the
    same, with the analyzer paused.  With two happy in the window and a
    third under way, the record after the pause makes the window three long
    and sets the verdict. *)
Theorem pause_misses_pending_record
    (sem : Statistics.ModeSemantics) (DEEPFACE_AVAILABLE : bool)
    (s : EmotionAnalyzer) (pred : string) :
  (let sys := exec sem DEEPFACE_AVAILABLE {| analyzer := s; pc := Predicted pred |}
                [CallPause; Commit] in
   paused (analyzer sys) = true /\
   window (analyzer sys) = Deque.append ROLLING_WINDOW (window s) pred /\
   exists older, window (analyzer sys) = older ++ [pred]) /\
  (let before := exec sem true start
                   (played ["happy"; "happy"]
                    ++ [LoopHead (Some (frame_saying "happy")) 0; CallPause]) in
   let after := step sem true before Commit in
   paused (analyzer before) = true /\
   window (analyzer before) = ["happy"; "happy"] /\
   get_stable (analyzer before) = None /\
   paused (analyzer after) = true /\
   window (analyzer after) = ["happy"; "happy"; "happy"] /\
   get_stable (analyzer after) = Some "happy").
Proof.
  split.
  - cbv zeta. split; [reflexivity|]. split; [reflexivity|].
    apply (window_records_suffix sem (pause s) [pred]).
    unfold ROLLING_WINDOW. simpl. lia.
  - destruct sem; repeat split.
Qed.

(** C7. [pause] twice is [pause] once, and [resume] twice is [resume] once. *)
Theorem pause_resume_idempotent (s : EmotionAnalyzer) :
  pause (pause s) = pause s /\ resume (resume s) = resume s.
Proof. split; reflexivity. Qed.

(** C8. Recording happy, sad, happy, neutral, happy, sad, sad into a fresh
    tracker: no verdict through the fourth record, happy after the fifth;
    after the seventh happy and sad both occur three times, the older
    [statistics.mode] raises and the promotion is skipped, the newer one
    returns happy, and either way the verdict is happy. *)
Theorem tie_scenario_verdicts (sem : Statistics.ModeSemantics) :
  ROLLING_WINDOW = 7 /\ STABLE_THRESHOLD = 3 /\
  get_stable (records sem init (firstn 4 scenario_tie)) = None /\
  get_stable (records sem init (firstn 5 scenario_tie)) = Some "happy" /\
  window (records sem init scenario_tie) = scenario_tie /\
  count_occ string_dec scenario_tie "happy" = 3 /\
  count_occ string_dec scenario_tie "sad" = 3 /\
  Statistics.mode Statistics.UniqueMode scenario_tie = None /\
  Statistics.mode Statistics.FirstMode scenario_tie = Some "happy" /\
  get_stable (records sem init scenario_tie) = Some "happy" /\
  analyzer (exec sem true start (played scenario_tie)) = records sem init scenario_tie.
Proof.
  destruct sem; repeat split.
Qed.

(** C9. An iteration without a frame changes nothing.  When the classifier
    raises, or returns nothing usable, or is not installed, the iteration
    still completes and records a label drawn from the seven labels: the
    window afterwards is the old window with that label appended (the oldest
    entry dropped when full), so the label is its newest entry. *)
Theorem loop_contains_failures
    (sem : Statistics.ModeSemantics) (DEEPFACE_AVAILABLE : bool)
    (s : EmotionAnalyzer) (f : Frame) (rnd : nat)
    (Hrunning : running s = true) (Hpaused : paused s = false)
    (Hfails : analyze f = Raises) :
  tick sem DEEPFACE_AVAILABLE s None rnd = s /\
  (forall sys, step sem DEEPFACE_AVAILABLE sys (LoopHead None rnd) = sys) /\
  tick sem true s (Some f) rnd = record sem s (Py.random_choice rnd (Py.keys EMOJI)) /\
  tick sem true s (Some frame_unusable) rnd =
    record sem s (Py.random_choice rnd (Py.keys MOOD_TEXT)) /\
  (forall f', tick sem false s (Some f') rnd =
              record sem s (Py.random_choice rnd (Py.keys MOOD_TEXT))) /\
  is_label (Py.random_choice rnd (Py.keys EMOJI)) /\
  is_label (Py.random_choice rnd (Py.keys MOOD_TEXT)) /\
  window (tick sem true s (Some f) rnd) =
    Deque.append ROLLING_WINDOW (window s) (Py.random_choice rnd (Py.keys EMOJI)) /\
  window (tick sem true s (Some frame_unusable) rnd) =
    Deque.append ROLLING_WINDOW (window s) (Py.random_choice rnd (Py.keys MOOD_TEXT)) /\
  (forall f', window (tick sem false s (Some f') rnd) =
              Deque.append ROLLING_WINDOW (window s)
                (Py.random_choice rnd (Py.keys MOOD_TEXT))) /\
  (exists older, window (tick sem true s (Some f) rnd) =
                 older ++ [Py.random_choice rnd (Py.keys EMOJI)]) /\
  (exists older, window (tick sem true s (Some frame_unusable) rnd) =
                 older ++ [Py.random_choice rnd (Py.keys MOOD_TEXT)]) /\
  (forall f', exists older, window (tick sem false s (Some f') rnd) =
                            older ++ [Py.random_choice rnd (Py.keys MOOD_TEXT)]) /\
  running (tick sem true s (Some f) rnd) = true /\
  paused (tick sem true s (Some f) rnd) = false.
Proof.
  assert (Hraise : tick sem true s (Some f) rnd =
                   record sem s (Py.random_choice rnd (Py.keys EMOJI)))
    by (unfold tick, _predict; now rewrite Hrunning, Hpaused, Hfails).
  assert (Hunusable : tick sem true s (Some frame_unusable) rnd =
                      record sem s (Py.random_choice rnd (Py.keys MOOD_TEXT)))
    by (unfold tick; now rewrite Hrunning, Hpaused).
  assert (Hmissing : forall f', tick sem false s (Some f') rnd =
                                record sem s (Py.random_choice rnd (Py.keys MOOD_TEXT)))
    by (intros f'; unfold tick; now rewrite Hrunning, Hpaused).
  assert (Hnewest : forall l, exists older, window (record sem s l) = older ++ [l]).
  { intros l. apply (window_records_suffix sem s [l]). unfold ROLLING_WINDOW. simpl. lia. }
  split; [unfold tick; rewrite Hrunning, Hpaused; reflexivity|].
  split.
  { intros sys. unfold step. destruct (pc sys); [|reflexivity].
    destruct (negb (running (analyzer sys))); [reflexivity|].
    destruct (paused (analyzer sys)); reflexivity. }
  split; [exact Hraise|]. split; [exact Hunusable|]. split; [exact Hmissing|].
  split; [apply random_choice_In; discriminate|].
  split; [apply random_choice_In; discriminate|].
  split; [rewrite Hraise; apply window_record|].
  split; [rewrite Hunusable; apply window_record|].
  split; [intros f'; rewrite Hmissing; apply window_record|].
  split; [rewrite Hraise; apply Hnewest|].
  split; [rewrite Hunusable; apply Hnewest|].
  split; [intros f'; rewrite Hmissing; apply Hnewest|].
  rewrite Hraise. split; assumption.
Qed.

Lemma loop_contains_failures_witness :
  window (tick Statistics.FirstMode true
            (records Statistics.FirstMode init ["happy"]) (Some frame_failing) 8)
  = Deque.append ROLLING_WINDOW ["happy"] (Py.random_choice 8 (Py.keys EMOJI)) /\
  Deque.append ROLLING_WINDOW ["happy"] (Py.random_choice 8 (Py.keys EMOJI))
  = ["happy"; "sad"].
Proof.
  split; [|reflexivity].
  apply (loop_contains_failures Statistics.FirstMode true
           (records Statistics.FirstMode init ["happy"]) frame_failing 8);
    reflexivity.
Defined.

(** C10. [_predict] only returns one of the seven labels: a dominant emotion
    that is not a key of [EMOTION_MAP] becomes neutral and both fallbacks
    draw from the seven labels.  So at every point of every run the window
    holds only such labels and the verdict is [None] or one of them. *)
Theorem labels_stay_in_closed_set
    (sem : Statistics.ModeSemantics) (DEEPFACE_AVAILABLE : bool) (es : list Event) :
  length LABELS = 7 /\
  (forall f rnd, is_label (_predict DEEPFACE_AVAILABLE f rnd)) /\
  (forall k, Py.dict_get EMOTION_MAP k "neutral" = if is_labelb k then k else "neutral") /\
  (forall rnd, is_label (Py.random_choice rnd (Py.keys EMOJI)) /\
               is_label (Py.random_choice rnd (Py.keys MOOD_TEXT))) /\
  Forall is_label (window (analyzer (exec sem DEEPFACE_AVAILABLE start es))) /\
  verdict_is_label (analyzer (exec sem DEEPFACE_AVAILABLE start es)) /\
  pending_is_label (pc (exec sem DEEPFACE_AVAILABLE start es)).
Proof.
  destruct (exec_well_formed sem DEEPFACE_AVAILABLE start es
              (start_well_formed)) as [_ Hlab Hv Hp].
  split; [reflexivity|].
  split; [intros f rnd; apply predict_label|].
  split; [exact emotion_map_get|].
  split; [intros rnd; split; apply random_choice_In; discriminate|].
  split; [exact Hlab|]. split; [exact Hv | exact Hp].
Qed.


(** * Further properties of the program *)

(** ** The window as a sliding suffix *)

Lemma tl_skipn {A : Type} (k : nat) (l : list A) : tl (skipn k l) = skipn (S k) l.
Proof.
  revert l. induction k as [|k IH]; intros l.
  - destruct l; reflexivity.
  - destruct l as [|a l]; [reflexivity|]. simpl skipn at 1. rewrite IH. reflexivity.
Qed.

(** Appending to the last [n] items gives the last [n] items of the longer list. *)
Lemma deque_append_last_n (n : nat) (l : list string) (x : string) :
  0 < n -> Deque.append n (last_n n l) x = last_n n (l ++ [x]).
Proof.
  intros Hn. unfold last_n. rewrite length_app. simpl.
  destruct (Nat.lt_ge_cases (length l) n) as [Hlt|Hge].
  - replace (length l - n) with 0 by lia.
    replace (length l + 1 - n) with 0 by lia. simpl.
    now apply deque_append_below.
  - rewrite deque_append_full; [|rewrite length_skipn; lia|assumption].
    rewrite tl_skipn. replace (length l + 1 - n) with (S (length l - n)) by lia.
    rewrite skipn_app.
    replace (S (length l - n) - length l) with 0 by lia. reflexivity.
Qed.

Section WindowFacts.

Variable sem : Statistics.ModeSemantics.

Lemma window_records_last_n (s : EmotionAnalyzer) (labels : list string) :
  length (window s) <= ROLLING_WINDOW ->
  window (records sem s labels) = last_n ROLLING_WINDOW (window s ++ labels).
Proof.
  intros Hlen. induction labels as [|x labels IH] using rev_ind.
  - rewrite app_nil_r. unfold last_n.
    replace (length (window s) - ROLLING_WINDOW) with 0 by lia. reflexivity.
  - rewrite records_snoc, window_record, IH, app_assoc.
    apply deque_append_last_n. unfold ROLLING_WINDOW. lia.
Qed.

Lemma last_n_length (n : nat) (l : list string) : length (last_n n l) <= n.
Proof. unfold last_n. rewrite length_skipn. lia. Qed.

Lemma records_length_bounded (s : EmotionAnalyzer) (labels : list string) :
  length (window s) <= ROLLING_WINDOW ->
  length (window (records sem s labels)) <= ROLLING_WINDOW.
Proof.
  intros Hlen. rewrite window_records_last_n by assumption. apply last_n_length.
Qed.

(** A record into a window of fewer than [STABLE_THRESHOLD - 1] labels
    cannot set a verdict. *)
Lemma record_short_no_verdict (s : EmotionAnalyzer) (l : string) :
  stable_emotion s = None -> S (length (window s)) < STABLE_THRESHOLD ->
  stable_emotion (record sem s l) = None /\
  length (window (record sem s l)) <= S (length (window s)).
Proof.
  intros Hv Hshort.
  assert (Hlen : length (window (record sem s l)) <= S (length (window s))).
  { rewrite window_record. unfold Deque.append.
    destruct (_ <? _).
    - destruct (window s); simpl; [lia|]. rewrite length_app. simpl. lia.
    - rewrite length_app. simpl. lia. }
  split; [|exact Hlen].
  rewrite stable_record, Hv.
  destruct (Statistics.mode sem _) as [m|]; [|reflexivity].
  replace (STABLE_THRESHOLD <=? _) with false; [now rewrite andb_false_r|].
  symmetry. apply Nat.leb_gt.
  pose proof (count_occ_bound string_dec m (window (record sem s l))). lia.
Qed.

(** A label that is alone the most frequent, at least [STABLE_THRESHOLD]
    times, right after a record is the verdict. *)
Lemma record_unique_mode_verdict (s : EmotionAnalyzer) (x l : string) :
  is_label l ->
  Statistics.is_unique_mode (window (record sem s x)) l ->
  STABLE_THRESHOLD <= count_occ string_dec (window (record sem s x)) l ->
  stable_emotion (record sem s x) = Some l.
Proof.
  intros Hl Hmode Hc. rewrite stable_record.
  rewrite (StatisticsFacts.mode_of_unique_mode sem _ _ Hmode), (label_truthy l Hl).
  apply Nat.leb_le in Hc. now rewrite Hc.
Qed.

End WindowFacts.

(** X1. The window is always the last [ROLLING_WINDOW] labels of what it held
    followed by what was recorded since, oldest first; once
    [ROLLING_WINDOW] labels have been recorded nothing older is left. *)
Theorem window_holds_latest_labels
    (sem : Statistics.ModeSemantics) (s : EmotionAnalyzer) (labels : list string)
    (Hlen : length (window s) <= ROLLING_WINDOW) :
  window (records sem s labels) = last_n ROLLING_WINDOW (window s ++ labels) /\
  (ROLLING_WINDOW <= length labels ->
   window (records sem s labels) = last_n ROLLING_WINDOW labels).
Proof.
  split; [now apply window_records_last_n|].
  intros Hfull. rewrite window_records_last_n by assumption.
  unfold last_n. rewrite length_app, skipn_app.
  replace (skipn (length (window s) + length labels - ROLLING_WINDOW) (window s))
    with (@nil string) by (symmetry; apply skipn_all2; lia).
  simpl. f_equal. lia.
Qed.

Lemma window_holds_latest_labels_witness :
  window (records Statistics.FirstMode
            (records Statistics.FirstMode init ["fear"; "sad"; "sad"])
            ["happy"; "happy"; "angry"; "sad"; "fear"; "happy"])
  = ["sad"; "happy"; "happy"; "angry"; "sad"; "fear"; "happy"].
Proof.
  refine (eq_trans
            (proj1 (window_holds_latest_labels Statistics.FirstMode
                      (records Statistics.FirstMode init ["fear"; "sad"; "sad"])
                      ["happy"; "happy"; "angry"; "sad"; "fear"; "happy"] _)) _).
  - vm_compute. lia.
  - reflexivity.
Defined.

(** ** How much evidence a verdict needs *)

(** X2. An analyzer without a verdict cannot get one before the window has
    had the chance to hold [STABLE_THRESHOLD] labels: as long as the labels
    in the window plus the commits made are fewer than that, whatever the
    frames, the draws and the calls of pause, resume and stop, the verdict
    stays [None].  After [__init__] or [resume] that is fewer than three
    commits. *)
Theorem no_verdict_before_threshold
    (sem : Statistics.ModeSemantics) (DEEPFACE_AVAILABLE : bool)
    (sys : System) (es : list Event)
    (Hnone : stable_emotion (analyzer sys) = None)
    (Hfew : length (window (analyzer sys)) + commits es < STABLE_THRESHOLD) :
  get_stable (analyzer (exec sem DEEPFACE_AVAILABLE sys es)) = None.
Proof.
  unfold get_stable, exec. revert sys Hnone Hfew.
  induction es as [|e es IH]; intros sys Hnone Hfew; [exact Hnone|].
  simpl. apply IH.
  - destruct e as [frame rnd| | | |]; try reflexivity; try exact Hnone.
    + now rewrite step_verdict by discriminate.
    + unfold step. destruct (pc sys) as [|pred]; [exact Hnone|].
      apply record_short_no_verdict; [exact Hnone|].
      unfold commits in Hfew. simpl in Hfew. lia.
  - destruct e as [frame rnd| | | |]; unfold commits in *; simpl in *; try lia.
    + destruct (pc sys); [|lia].
      destruct (negb _); [lia|]. destruct (paused _); [lia|].
      destruct frame; simpl; lia.
    + destruct (pc sys) as [|pred]; [lia|]. cbn [analyzer].
      pose proof (record_short_no_verdict sem (analyzer sys) pred Hnone) as H.
      destruct H as [_ H]; lia.
Qed.

Lemma no_verdict_before_threshold_witness :
  get_stable (analyzer (exec Statistics.FirstMode true start
                          (played ["angry"; "angry"] ++ [CallPause]))) = None.
Proof.
  apply no_verdict_before_threshold.
  - reflexivity.
  - vm_compute. lia.
Defined.

(** X3. Four or more records of the same label in a row make it the verdict,
    whatever the window held before and whatever the verdict was: the label
    then has a majority of the seven places. *)
Theorem repeated_label_becomes_verdict
    (sem : Statistics.ModeSemantics) (s : EmotionAnalyzer) (l : string) (n : nat)
    (Hlabel : is_label l)
    (Hlen : length (window s) <= ROLLING_WINDOW)
    (Hn : 4 <= n) :
  get_stable (records sem s (repeat l n)) = Some l.
Proof.
  replace n with ((n - 4) + 4) by lia. rewrite repeat_app.
  unfold records at 1. rewrite fold_left_app. fold (records sem s (repeat l (n - 4))).
  set (s1 := records sem s (repeat l (n - 4))).
  assert (Hlen1 : length (window s1) <= ROLLING_WINDOW)
    by (now apply records_length_bounded).
  fold (records sem s1 (repeat l 4)).
  destruct (window_records_suffix sem s1 (repeat l 4)) as [pre Hpre];
    [unfold ROLLING_WINDOW; simpl; lia|].
  pose proof (records_length_bounded sem s1 (repeat l 4) Hlen1) as Hbound.
  rewrite Hpre, length_app in Hbound. unfold ROLLING_WINDOW in Hbound.
  simpl in Hbound.
  assert (Hcount : count_occ string_dec (pre ++ repeat l 4) l = count_occ string_dec pre l + 4)
    by (rewrite count_occ_app, count_occ_repeat_eq; reflexivity).
  change (repeat l 4) with (repeat l 3 ++ [l]) in *.
  rewrite records_snoc in *. unfold get_stable.
  apply record_unique_mode_verdict; [assumption| |].
  - rewrite Hpre. split; [apply in_or_app; right; simpl; tauto|].
    intros x Hx. rewrite Hcount.
    change (repeat l 3 ++ [l]) with (repeat l 4).
    rewrite count_occ_app, count_occ_repeat_neq by assumption.
    pose proof (count_occ_bound string_dec x pre). lia.
  - rewrite Hpre, Hcount. unfold STABLE_THRESHOLD. lia.
Qed.

Lemma repeated_label_becomes_verdict_witness :
  get_stable (records Statistics.UniqueMode
                (records Statistics.UniqueMode init ["sad"; "sad"; "sad"])
                (repeat "happy" 4)) = Some "happy".
Proof.
  apply repeated_label_becomes_verdict.
  - unfold is_label. simpl. tauto.
  - vm_compute. lia.
  - lia.
Defined.



(** ** What [_predict] returns on a usable result *)

Lemma is_label_labelb (k : string) : is_label k -> is_labelb k = true.
Proof.
  unfold is_label, is_labelb. intros H. apply existsb_exists.
  exists k. split; [assumption | apply String.eqb_refl].
Qed.

Lemma lower_truthy (d : string) : Py.truthy (Py.lower d) = Py.truthy d.
Proof. destruct d; reflexivity. Qed.

Lemma max_key_spec (best : string * Py.float) (items : list (string * Py.float)) :
  exists v,
    In (Py.max_key best items, v) (best :: items) /\
    (forall p, In p (best :: items) -> Py.float_gt (snd p) v = false) /\
    (v = Py.NaN <-> snd best = Py.NaN) /\
    (v = Py.NaN -> Py.max_key best items = fst best).
Proof.
  revert best. induction items as [|a items IH]; intros [k0 v0]; simpl.
  - exists v0. split; [now left|]. split; [|split; [tauto | reflexivity]].
    intros p [H|[]]. subst p. simpl. destruct v0; [reflexivity|].
    simpl. apply Z.ltb_irrefl.
  - destruct (Py.float_gt (snd a) v0) eqn:Egt.
    + destruct a as [ka va]. simpl in Egt.
      destruct va as [|x]; [discriminate|]. destruct v0 as [|y]; [discriminate|].
      simpl in Egt. apply Z.ltb_lt in Egt.
      destruct (IH (ka, Py.Num x)) as [v [Hin [Hmax [Hnan Hfirst]]]].
      assert (Hv : exists w, v = Py.Num w /\ (x <= w)%Z).
      { destruct v as [|w]; [destruct Hnan as [Hnan _]; discriminate (Hnan eq_refl)|].
        exists w. split; [reflexivity|].
        specialize (Hmax (ka, Py.Num x) (or_introl eq_refl)). simpl in Hmax.
        apply Z.ltb_ge in Hmax. exact Hmax. }
      destruct Hv as [w [-> Hxw]].
      exists (Py.Num w). split; [right; exact Hin|]. split; [|split].
      * intros p [H|H]; [|now apply Hmax].
        subst p. simpl. apply Z.ltb_ge. lia.
      * split; discriminate.
      * discriminate.
    + destruct (IH (k0, v0)) as [v [Hin [Hmax [Hnan Hfirst]]]]. simpl in Hnan, Hfirst.
      exists v. split; [|split; [|split; assumption]].
      * destruct Hin as [Hin|Hin]; [now left | right; now right].
      * intros p [H|[H|H]].
        -- subst p. apply Hmax. now left.
        -- subst p. destruct a as [ka va]. simpl in *.
           destruct va as [|x]; [reflexivity|].
           destruct v0 as [|y].
           ++ destruct Hnan as [_ Hnan]. now rewrite (Hnan eq_refl).
           ++ simpl in Egt. apply Z.ltb_ge in Egt.
              destruct v as [|w]; [reflexivity|]. simpl.
              specialize (Hmax (k0, Py.Num y) (or_introl eq_refl)). simpl in Hmax.
              apply Z.ltb_ge in Hmax. apply Z.ltb_ge. lia.
        -- apply Hmax. now right.
Qed.

(** X5. When the classifier names a dominant emotion that is one of the
    seven labels in any mix of upper and lower case, [_predict] returns that
    label in lower case, whatever the emotion scores and the random draw. *)
Theorem predict_normalises_case
    (f : Frame) (res : AnalysisResult) (d : string) (rnd : nat)
    (Hreturns : analyze f = Returns res)
    (Hdominant : dominant_emotion res = Some d)
    (Hlabel : is_label (Py.lower d)) :
  _predict true f rnd = Py.lower d.
Proof.
  assert (Ht : Py.truthy d = true)
    by (rewrite <- lower_truthy; now apply label_truthy).
  unfold _predict. rewrite Hreturns, Hdominant. cbn [negb]. rewrite Ht. cbn [negb].
  rewrite Ht, emotion_map_get. now rewrite (is_label_labelb _ Hlabel).
Qed.

Lemma predict_normalises_case_witness :
  _predict true
    {| analyze := Returns {| dominant_emotion := Some "SurPrise";
                             emotion := [("sad", Py.Num 90); ("surprise", Py.Num 10)] |} |} 5
  = "surprise".
Proof.
  apply (predict_normalises_case _
           {| dominant_emotion := Some "SurPrise";
              emotion := [("sad", Py.Num 90); ("surprise", Py.Num 10)] |} "SurPrise" 5).
  - reflexivity.
  - reflexivity.
  - unfold is_label. simpl. tauto.
Defined.

(** X6. When the result names no dominant emotion but carries emotion
    scores, [_predict] goes by the key Python's [max] picks: a key of the
    dict whose score no other score exceeds under [>], so a highest score
    when it is a number, and the first key of the dict when that key's score
    is NaN.  It returns that key's entry in [EMOTION_MAP] (neutral when the
    key is unknown), or the random fallback when the key is the empty
    string. *)
Theorem predict_falls_back_to_top_score
    (f : Frame) (res : AnalysisResult) (rnd : nat)
    (Hreturns : analyze f = Returns res)
    (Hdominant : dominant_emotion res = None \/ dominant_emotion res = Some "")
    (Hscores : emotion res <> []) :
  exists k v,
    In (k, v) (emotion res) /\
    (forall p, In p (emotion res) -> Py.float_gt (snd p) v = false) /\
    (forall z k' z', v = Py.Num z -> In (k', Py.Num z') (emotion res) -> (z' <= z)%Z) /\
    (v = Py.NaN <-> exists rest, emotion res = (k, Py.NaN) :: rest) /\
    _predict true f rnd =
      if Py.truthy k then Py.dict_get EMOTION_MAP (Py.lower k) "neutral"
      else Py.random_choice rnd (Py.keys MOOD_TEXT).
Proof.
  destruct (emotion res) as [|it rest] eqn:Escores; [congruence|].
  destruct (max_key_spec it rest) as [v [Hin [Hmax [Hnan Hfirst]]]].
  exists (Py.max_key it rest), v. split; [exact Hin|]. split; [exact Hmax|].
  split; [|split].
  - intros z k' z' -> Hk'. specialize (Hmax _ Hk'). simpl in Hmax.
    now apply Z.ltb_ge in Hmax.
  - split.
    + intros Hv. exists rest. destruct it as [k0 v0]. simpl in *.
      rewrite (Hfirst Hv). f_equal. f_equal. now apply Hnan.
    + intros [rest' Heq]. destruct it as [k0 v0]. apply Hnan. simpl.
      now inversion Heq.
  - unfold _predict. rewrite Hreturns, Escores.
    destruct Hdominant as [Hd|Hd]; rewrite Hd; reflexivity.
Qed.

Lemma predict_falls_back_to_top_score_witness :
  exists k v,
    In (k, v) [("sad", Py.NaN); ("happy", Py.Num 1)] /\
    (forall p, In p [("sad", Py.NaN); ("happy", Py.Num 1)] -> Py.float_gt (snd p) v = false) /\
    (forall z k' z', v = Py.Num z ->
       In (k', Py.Num z') [("sad", Py.NaN); ("happy", Py.Num 1)] -> (z' <= z)%Z) /\
    (v = Py.NaN <-> exists rest, [("sad", Py.NaN); ("happy", Py.Num 1)] = (k, Py.NaN) :: rest) /\
    _predict true
      {| analyze := Returns {| dominant_emotion := None;
                               emotion := [("sad", Py.NaN); ("happy", Py.Num 1)] |} |} 0
    = if Py.truthy k then Py.dict_get EMOTION_MAP (Py.lower k) "neutral"
      else Py.random_choice 0 (Py.keys MOOD_TEXT).
Proof.
  apply (predict_falls_back_to_top_score
           {| analyze := Returns {| dominant_emotion := None;
                                    emotion := [("sad", Py.NaN); ("happy", Py.Num 1)] |} |}
           {| dominant_emotion := None;
              emotion := [("sad", Py.NaN); ("happy", Py.Num 1)] |} 0).
  - reflexivity.
  - left. reflexivity.
  - discriminate.
Defined.

(** The two orders of a NaN score: first in the dict it is kept, later it is
    passed over. *)
Lemma predict_nan_scores :
  _predict true
    {| analyze := Returns {| dominant_emotion := None;
                             emotion := [("sad", Py.NaN); ("happy", Py.Num 1)] |} |} 0
  = "sad" /\
  _predict true
    {| analyze := Returns {| dominant_emotion := None;
                             emotion := [("happy", Py.Num 1); ("sad", Py.NaN)] |} |} 0
  = "happy".
Proof. split; reflexivity. Qed.

(** ** Rock, paper, scissors *)

(** X7. The game is fair to every move: against the three moves the
    computer can draw, a player's move ties with itself, beats exactly one
    other move and loses to exactly the remaining one. *)
Theorem rps_each_move_fair (user : string) (Hmove : In user Rps.moves) :
  exists beaten beating,
    In beaten Rps.moves /\ In beating Rps.moves /\
    beaten <> user /\ beating <> user /\ beaten <> beating /\
    (forall comp, In comp Rps.moves ->
       (Rps.outcome user comp = Rps.Tie <-> comp = user) /\
       (Rps.outcome user comp = Rps.Win <-> comp = beaten) /\
       (Rps.outcome user comp = Rps.Lose <-> comp = beating)).
Proof.
  unfold Rps.moves in *. simpl in Hmove.
  destruct Hmove as [<-|[<-|[<-|[]]]].
  - exists "Scissors", "Paper". repeat (split; [simpl; tauto || discriminate|]).
    intros comp [<-|[<-|[<-|[]]]]; vm_compute;
      repeat split; intros; try discriminate; reflexivity.
  - exists "Rock", "Scissors". repeat (split; [simpl; tauto || discriminate|]).
    intros comp [<-|[<-|[<-|[]]]]; vm_compute;
      repeat split; intros; try discriminate; reflexivity.
  - exists "Paper", "Rock". repeat (split; [simpl; tauto || discriminate|]).
    intros comp [<-|[<-|[<-|[]]]]; vm_compute;
      repeat split; intros; try discriminate; reflexivity.
Qed.

Lemma rps_each_move_fair_witness :
  exists beaten beating,
    In beaten Rps.moves /\ In beating Rps.moves /\
    beaten <> "Paper" /\ beating <> "Paper" /\ beaten <> beating /\
    (forall comp, In comp Rps.moves ->
       (Rps.outcome "Paper" comp = Rps.Tie <-> comp = "Paper") /\
       (Rps.outcome "Paper" comp = Rps.Win <-> comp = beaten) /\
       (Rps.outcome "Paper" comp = Rps.Lose <-> comp = beating)).
Proof.
  apply (rps_each_move_fair "Paper"). simpl. tauto.
Defined.

(** X8. The two sides of a round agree: the player wins with [user] against
    [comp] exactly when they would lose with [comp] against [user], and a
    round is a tie exactly when both moves are the same.  What the computer
    draws is always one of the three moves. *)
Theorem rps_sides_agree (user comp : string)
    (Huser : In user Rps.moves) (Hcomp : In comp Rps.moves) :
  (Rps.outcome user comp = Rps.Win <-> Rps.outcome comp user = Rps.Lose) /\
  (Rps.outcome user comp = Rps.Tie <-> user = comp) /\
  (forall rnd, In (Py.random_choice rnd Rps.moves) Rps.moves).
Proof.
  split; [|split].
  - unfold Rps.moves in *. simpl in Huser, Hcomp.
    destruct Huser as [<-|[<-|[<-|[]]]]; destruct Hcomp as [<-|[<-|[<-|[]]]];
      vm_compute; split; intros; try discriminate; reflexivity.
  - unfold Rps.outcome. destruct (String.eqb_spec user comp) as [E|E].
    + split; [intros _; exact E | reflexivity].
    + split; [|contradiction].
      destruct (_ || _); discriminate.
  - intros rnd. apply random_choice_In. discriminate.
Qed.

Lemma rps_sides_agree_witness :
  Rps.outcome "Rock" "Scissors" = Rps.Win <-> Rps.outcome "Scissors" "Rock" = Rps.Lose.
Proof.
  apply (rps_sides_agree "Rock" "Scissors"); simpl; tauto.
Defined.

(** ** The joke window *)

(** X9. When [pyjokes] is not installed or [get_joke] raises, the joke shown
    is one of the three fallback jokes; otherwise it is the one [pyjokes]
    gave. *)
Theorem joke_falls_back (JOKES_AVAILABLE : bool) (get_joke : option string) (rnd : nat) :
  match JOKES_AVAILABLE, get_joke with
  | true, Some joke => Gui.show_joke_window JOKES_AVAILABLE get_joke rnd = joke
  | _, _ => In (Gui.show_joke_window JOKES_AVAILABLE get_joke rnd) Gui.FALLBACK_JOKES
  end.
Proof.
  unfold Gui.show_joke_window.
  destruct JOKES_AVAILABLE; [destruct get_joke as [joke|]|];
    try reflexivity; apply random_choice_In; discriminate.
Qed.

(** ** The reaction gate *)

Lemma view_uses_own_entries (mood : string) :
  is_label mood ->
  In (mood, Gui.emoji_lbl (Gui.on_new_emotion_view mood)) Gui.EMOJI /\
  In (mood, (Gui.title_lbl (Gui.on_new_emotion_view mood),
             Gui.subtitle_lbl (Gui.on_new_emotion_view mood))) Gui.MOOD_TEXT.
Proof.
  unfold is_label, LABELS. simpl.
  intros H. repeat (destruct H as [<-|H]; [split; simpl; tauto|]). destruct H.
Qed.

Section GateFacts.

Variable Time : Type.
Variable elapsed : Time -> Time -> bool.
Variable epoch : Time.
Variable sem : Statistics.ModeSemantics.
Variable DEEPFACE_AVAILABLE : bool.

Lemma app_exec_snoc (app : MoodMateApp Time) (es : list (AppEvent Time)) (e : AppEvent Time) :
  app_exec elapsed sem DEEPFACE_AVAILABLE app (es ++ [e]) =
  app_step elapsed sem DEEPFACE_AVAILABLE (app_exec elapsed sem DEEPFACE_AVAILABLE app es) e.
Proof. unfold app_exec. now rewrite fold_left_app. Qed.

Lemma loop_head_keeps_analyzer (sys : System) (frame : option Frame) (rnd : nat) :
  analyzer (step sem DEEPFACE_AVAILABLE sys (LoopHead frame rnd)) = analyzer sys.
Proof.
  unfold step. destruct (pc sys); [|reflexivity].
  destruct (negb _); [reflexivity|]. destruct (paused _); [reflexivity|].
  destruct frame; reflexivity.
Qed.

(** A poll either changes nothing or reacts to the analyzer's verdict. *)
Lemma poll_cases (now : Time) (app : MoodMateApp Time) :
  check_stable_periodic elapsed now app = app \/
  exists stable,
    stable_emotion (analyzer (the_analyzer app)) = Some stable /\
    Py.truthy stable = true /\
    differs stable (current_displayed app) = true /\
    elapsed now (last_trigger app) = true /\
    check_stable_periodic elapsed now app =
      {| the_analyzer := on_analyzer pause (the_analyzer app);
         current_displayed := Some stable;
         last_trigger := now;
         reactions := reactions app ++ [(now, stable)] |}.
Proof.
  unfold check_stable_periodic, get_stable.
  destruct (stable_emotion (analyzer (the_analyzer app))) as [stable|]; [|now left].
  destruct (Py.truthy stable) eqn:Et; [|now left].
  destruct (differs stable (current_displayed app)) eqn:Ed;
    [|left; now rewrite andb_false_r].
  destruct (elapsed now (last_trigger app)) eqn:Ee; [|now left].
  right. exists stable. simpl. auto.
Qed.

Lemma app_step_keeps_labels (app : MoodMateApp Time) (e : AppEvent Time) :
  well_formed (the_analyzer app) ->
  Forall (fun r => is_label (snd r)) (reactions app) ->
  well_formed (the_analyzer (app_step elapsed sem DEEPFACE_AVAILABLE app e)) /\
  Forall (fun r => is_label (snd r))
         (reactions (app_step elapsed sem DEEPFACE_AVAILABLE app e)).
Proof.
  intros Hwf Hlog. destruct e as [[frame rnd| | | |]|now| | |]; simpl;
    try (split; [|exact Hlog]); try exact Hwf.
  - now apply (step_well_formed sem DEEPFACE_AVAILABLE _ (LoopHead frame rnd)).
  - now apply (step_well_formed sem DEEPFACE_AVAILABLE _ Commit).
  - destruct (poll_cases now app) as [E|[stable [Hs [_ [_ [_ E]]]]]]; rewrite E.
    + split; assumption.
    + simpl. split.
      * now apply (step_well_formed sem DEEPFACE_AVAILABLE _ CallPause).
      * apply Forall_app. split; [exact Hlog|]. constructor; [|constructor].
        simpl. pose proof (wf_verdict _ Hwf) as Hv.
        unfold verdict_is_label in Hv. now rewrite Hs in Hv.
  - now apply (step_well_formed sem DEEPFACE_AVAILABLE _ CallResume).
  - now apply (step_well_formed sem DEEPFACE_AVAILABLE _ CallPause).
  - now apply (step_well_formed sem DEEPFACE_AVAILABLE _ CallStop).
Qed.

Lemma app_exec_keeps_labels (app : MoodMateApp Time) (es : list (AppEvent Time)) :
  well_formed (the_analyzer app) ->
  Forall (fun r => is_label (snd r)) (reactions app) ->
  well_formed (the_analyzer (app_exec elapsed sem DEEPFACE_AVAILABLE app es)) /\
  Forall (fun r => is_label (snd r))
         (reactions (app_exec elapsed sem DEEPFACE_AVAILABLE app es)).
Proof.
  revert app. induction es as [|e es IH]; intros app Hwf Hlog; [now split|].
  simpl. destruct (app_step_keeps_labels app e Hwf Hlog) as [Hwf' Hlog'].
  now apply IH.
Qed.

Lemma spaced_snoc (last t : Time) (mood : string) (log : list (Time * string)) :
  spaced elapsed last log ->
  elapsed t (last_time last log) = true ->
  spaced elapsed last (log ++ [(t, mood)]).
Proof.
  revert last. induction log as [|[t0 m0] log IH]; intros last Hsp He; simpl in *.
  - now split.
  - destruct Hsp as [H0 Hsp]. split; [exact H0|]. now apply IH.
Qed.

Lemma last_time_snoc (last t : Time) (mood : string) (log : list (Time * string)) :
  last_time last (log ++ [(t, mood)]) = t.
Proof. unfold last_time. now rewrite fold_left_app. Qed.

End GateFacts.

(** X10. Every reaction the GUI ever shows is for one of the seven labels,
    and the emoji, title and subtitle put on screen are that label's own
    entries of [EMOJI] and [MOOD_TEXT]: the neutral defaults of
    [on_new_emotion] are never needed. *)
Theorem reactions_show_known_moods
    (Time : Type) (elapsed : Time -> Time -> bool) (epoch : Time)
    (sem : Statistics.ModeSemantics) (DEEPFACE_AVAILABLE : bool)
    (es : list (AppEvent Time)) (t : Time) (mood : string)
    (Hshown : In (t, mood)
                 (reactions (app_exec elapsed sem DEEPFACE_AVAILABLE (app_start epoch) es))) :
  is_label mood /\
  In (mood, Gui.emoji_lbl (Gui.on_new_emotion_view mood)) Gui.EMOJI /\
  In (mood, (Gui.title_lbl (Gui.on_new_emotion_view mood),
             Gui.subtitle_lbl (Gui.on_new_emotion_view mood))) Gui.MOOD_TEXT.
Proof.
  destruct (app_exec_keeps_labels Time elapsed sem DEEPFACE_AVAILABLE (app_start epoch) es)
    as [_ Hlog].
  - exact start_well_formed.
  - constructor.
  - rewrite Forall_forall in Hlog. specialize (Hlog _ Hshown). simpl in Hlog.
    split; [exact Hlog | now apply view_uses_own_entries].
Qed.

Lemma reactions_show_known_moods_witness :
  is_label "sad" /\
  In ("sad", Gui.emoji_lbl (Gui.on_new_emotion_view "sad")) Gui.EMOJI /\
  In ("sad", (Gui.title_lbl (Gui.on_new_emotion_view "sad"),
              Gui.subtitle_lbl (Gui.on_new_emotion_view "sad"))) Gui.MOOD_TEXT.
Proof.
  apply (reactions_show_known_moods Z (fun now last => (1 <? now - last)%Z) 0%Z
           Statistics.FirstMode true
           (map Thread (played ["sad"; "sad"; "sad"]) ++ [Poll 5%Z]) 5%Z "sad").
  vm_compute. left. reflexivity.
Defined.

(** The atomic poll is its two steps run with nothing in between. *)
Lemma poll_steps_undisturbed
    (Time : Type) (elapsed : Time -> Time -> bool)
    (sem : Statistics.ModeSemantics) (DEEPFACE_AVAILABLE : bool)
    (app : MoodMateApp Time) (now : Time) :
  fine_exec elapsed sem DEEPFACE_AVAILABLE {| the_app := app; gui_pc := GuiIdle |}
    [PollRead now; PollPause]
  = {| the_app := check_stable_periodic elapsed now app; gui_pc := GuiIdle |}.
Proof.
  unfold fine_exec, check_stable_periodic. simpl.
  destruct (get_stable (analyzer (the_analyzer app))) as [stable|];
    [|destruct app; reflexivity].
  destruct (Py.truthy stable && differs stable (current_displayed app));
    [|destruct app; reflexivity].
  destruct (elapsed now (last_trigger app)); [reflexivity | destruct app; reflexivity].
Qed.

(** X11. Quiet until resume.  Once the analyzer is paused with its thread at
    the head of the loop, and the idle GUI shows the analyzer's verdict (the
    state a reaction ends in when the analyzer thread did not move between
    the poll's [get_stable()] and its [pause()]), nothing brings another
    reaction or changes window or verdict until Resume Detection is clicked:
    not the analyzer thread, not later polls taken as their two separate
    steps, not the pause button, not closing. *)
Theorem quiet_until_resume
    (Time : Type) (elapsed : Time -> Time -> bool)
    (sem : Statistics.ModeSemantics) (DEEPFACE_AVAILABLE : bool)
    (d : Desktop Time) (es : list (FineEvent Time))
    (Hidle : gui_pc d = GuiIdle)
    (Hpaused : paused (analyzer (the_analyzer (the_app d))) = true)
    (Hhead : pc (the_analyzer (the_app d)) = AtLoopHead)
    (Hshown : current_displayed (the_app d)
              = stable_emotion (analyzer (the_analyzer (the_app d))))
    (Hnoresume : ~ In FClickResume es) :
  let d' := fine_exec elapsed sem DEEPFACE_AVAILABLE d es in
  reactions (the_app d') = reactions (the_app d) /\
  paused (analyzer (the_analyzer (the_app d'))) = true /\
  window (analyzer (the_analyzer (the_app d'))) = window (analyzer (the_analyzer (the_app d))) /\
  stable_emotion (analyzer (the_analyzer (the_app d')))
    = stable_emotion (analyzer (the_analyzer (the_app d))).
Proof.
  unfold fine_exec. revert d Hidle Hpaused Hhead Hshown Hnoresume.
  induction es as [|e es IH]; intros d Hidle Hpaused Hhead Hshown Hnoresume;
    [simpl; tauto|].
  assert (Hstep :
    gui_pc (fine_step elapsed sem DEEPFACE_AVAILABLE d e) = GuiIdle /\
    pc (the_analyzer (the_app (fine_step elapsed sem DEEPFACE_AVAILABLE d e))) = AtLoopHead /\
    reactions (the_app (fine_step elapsed sem DEEPFACE_AVAILABLE d e)) = reactions (the_app d) /\
    current_displayed (the_app (fine_step elapsed sem DEEPFACE_AVAILABLE d e))
      = current_displayed (the_app d) /\
    paused (analyzer (the_analyzer (the_app (fine_step elapsed sem DEEPFACE_AVAILABLE d e))))
      = true /\
    window (analyzer (the_analyzer (the_app (fine_step elapsed sem DEEPFACE_AVAILABLE d e))))
      = window (analyzer (the_analyzer (the_app d))) /\
    stable_emotion (analyzer (the_analyzer (the_app (fine_step elapsed sem DEEPFACE_AVAILABLE d e))))
      = stable_emotion (analyzer (the_analyzer (the_app d)))).
  { destruct e as [[frame rnd| | | |]|now| | | |]; cbn [fine_step app_step the_app gui_pc];
      try (repeat split; assumption).
    - cbn [the_analyzer reactions current_displayed]. unfold step. rewrite Hhead, Hpaused.
      destruct (negb _); repeat split; assumption.
    - cbn [the_analyzer reactions current_displayed]. unfold step. rewrite Hhead.
      repeat split; assumption.
    - rewrite Hidle. unfold get_stable.
      destruct (stable_emotion (analyzer (the_analyzer (the_app d)))) as [stable|] eqn:Es;
        [|repeat split; assumption].
      rewrite Hshown. unfold differs. rewrite String.eqb_refl, andb_false_r.
      repeat split; try assumption.
    - rewrite Hidle. repeat split; assumption.
    - exfalso. apply Hnoresume. now left.
    - unfold when_idle. rewrite Hidle. simpl. repeat split; assumption.
    - unfold when_idle. rewrite Hidle. simpl. repeat split; assumption. }
  destruct Hstep as [Hi [Hh [Hr [Hc [Hp [Hw Hv]]]]]].
  simpl.
  destruct (IH (fine_step elapsed sem DEEPFACE_AVAILABLE d e) Hi Hp Hh) as [IHr [IHp [IHw IHv]]].
  - now rewrite Hc, Hv.
  - intros Hin. apply Hnoresume. now right.
  - cbv zeta in *. rewrite IHr, IHw, IHv, Hr, Hw, Hv. repeat split. exact IHp.
Qed.

Lemma quiet_until_resume_witness :
  let elapsed := fun now last => (1 <? now - last)%Z in
  let d := fine_exec elapsed Statistics.FirstMode true
             {| the_app := app_start 0%Z; gui_pc := GuiIdle |}
             (map FThread (played ["sad"; "sad"; "sad"]) ++ [PollRead 5%Z; PollPause]) in
  let d' := fine_exec elapsed Statistics.FirstMode true d
              (map FThread (played ["happy"; "happy"; "happy"])
               ++ [PollRead 9%Z; PollPause; FClickPause]) in
  reactions (the_app d) = [(5%Z, "sad")] /\
  reactions (the_app d') = reactions (the_app d) /\
  paused (analyzer (the_analyzer (the_app d'))) = true /\
  window (analyzer (the_analyzer (the_app d'))) = window (analyzer (the_analyzer (the_app d))) /\
  stable_emotion (analyzer (the_analyzer (the_app d')))
    = stable_emotion (analyzer (the_analyzer (the_app d))).
Proof.
  intros elapsed d d'. split; [reflexivity|].
  apply (quiet_until_resume Z elapsed Statistics.FirstMode true d
           (map FThread (played ["happy"; "happy"; "happy"])
            ++ [PollRead 9%Z; PollPause; FClickPause])).
  - reflexivity.
  - reflexivity.
  - reflexivity.
  - reflexivity.
  - vm_compute. intros H.
    repeat (destruct H as [H|H]; [discriminate|]). destruct H.
Defined.

(** The conditions of X11 are needed.  When the analyzer thread passes its
    loop head and commits between the poll's [get_stable()] and its
    [pause()], the thread is at the head of the loop at both moments, the
    analyzer ends up paused, and yet the verdict has moved on from the mood
    on display: the next poll reacts again. *)
Lemma commit_inside_reaction_reacts_again :
  let elapsed := fun now last => (1 <? now - last)%Z in
  let es := map FThread (played scenario_outvoted)
            ++ [PollRead 5%Z;
                FThread (LoopHead (Some (frame_saying "happy")) 0); FThread Commit;
                PollPause; PollRead 9%Z; PollPause] in
  reactions (the_app (fine_exec elapsed Statistics.FirstMode true
                        {| the_app := app_start 0%Z; gui_pc := GuiIdle |} es))
    = [(5%Z, "sad"); (9%Z, "happy")] /\
  reactions (the_app (fine_exec elapsed Statistics.UniqueMode true
                        {| the_app := app_start 0%Z; gui_pc := GuiIdle |} es))
    = [(5%Z, "sad"); (9%Z, "happy")].
Proof. split; reflexivity. Qed.

(** X12. Reactions are debounced: in every run each reaction passed the
    clock test against the reaction before it (the first against the initial
    [last_trigger]), whatever the analyzer and the buttons did in between. *)
Theorem reactions_are_debounced
    (Time : Type) (elapsed : Time -> Time -> bool) (epoch : Time)
    (sem : Statistics.ModeSemantics) (DEEPFACE_AVAILABLE : bool)
    (es : list (AppEvent Time)) :
  spaced elapsed epoch
    (reactions (app_exec elapsed sem DEEPFACE_AVAILABLE (app_start epoch) es)) /\
  last_trigger (app_exec elapsed sem DEEPFACE_AVAILABLE (app_start epoch) es) =
    last_time epoch
      (reactions (app_exec elapsed sem DEEPFACE_AVAILABLE (app_start epoch) es)).
Proof.
  induction es as [|e es IH] using rev_ind; [simpl; auto|].
  rewrite app_exec_snoc.
  set (app := app_exec elapsed sem DEEPFACE_AVAILABLE (app_start epoch) es) in *.
  destruct IH as [Hsp Hlast].
  destruct e as [[frame rnd| | | |]|now| | |]; cbn [app_step]; try (split; assumption).
  destruct (poll_cases Time elapsed now app) as [E|[stable [_ [_ [_ [He E]]]]]];
    rewrite E; [split; assumption|].
  simpl. split.
  - apply spaced_snoc; [exact Hsp | now rewrite <- Hlast].
  - now rewrite last_time_snoc.
Qed.

(** X13. After Resume Detection the next reaction needs fresh evidence:
    until the analyzer thread has committed [STABLE_THRESHOLD] predictions,
    no poll reacts, however often it polls. *)
Theorem resume_needs_three_commits
    (Time : Type) (elapsed : Time -> Time -> bool)
    (sem : Statistics.ModeSemantics) (DEEPFACE_AVAILABLE : bool)
    (app : MoodMateApp Time) (es : list (AppEvent Time))
    (Hfew : app_commits es < STABLE_THRESHOLD) :
  reactions (app_exec elapsed sem DEEPFACE_AVAILABLE (resume_detection app) es)
  = reactions app.
Proof.
  change (reactions app) with (reactions (resume_detection app)).
  assert (Hnone : stable_emotion (analyzer (the_analyzer (resume_detection app))) = None)
    by reflexivity.
  assert (Hlen : length (window (analyzer (the_analyzer (resume_detection app))))
                 + app_commits es < STABLE_THRESHOLD) by (simpl; exact Hfew).
  generalize dependent (resume_detection app). clear app Hfew.
  induction es as [|e es IH]; intros app Hnone Hlen; [reflexivity|].
  simpl.
  assert (Hstep :
    reactions (app_step elapsed sem DEEPFACE_AVAILABLE app e) = reactions app /\
    stable_emotion (analyzer (the_analyzer (app_step elapsed sem DEEPFACE_AVAILABLE app e)))
      = None /\
    length (window (analyzer (the_analyzer (app_step elapsed sem DEEPFACE_AVAILABLE app e))))
      + app_commits es < STABLE_THRESHOLD).
  { unfold app_commits in *.
    destruct e as [[frame rnd| | | |]|now| | |]; cbn [app_step]; simpl in Hlen;
      try (repeat split; [assumption | simpl; lia || exact Hlen]).
    - cbn [the_analyzer reactions]. rewrite loop_head_keeps_analyzer.
      repeat split; [assumption | exact Hlen].
    - cbn [the_analyzer reactions]. unfold step.
      destruct (pc (the_analyzer app)) as [|pred]; [repeat split; [assumption | lia]|].
      cbn [analyzer].
      destruct (record_short_no_verdict sem (analyzer (the_analyzer app)) pred Hnone)
        as [Hv Hl]; [lia|].
      repeat split; [exact Hv | lia].
    - unfold check_stable_periodic, get_stable. rewrite Hnone.
      repeat split; [assumption | exact Hlen].
    - repeat split. simpl. lia. }
  destruct Hstep as [Hr [Hv Hl]]. rewrite <- Hr. now apply IH.
Qed.

Lemma resume_needs_three_commits_witness :
  let elapsed := fun now last => (1 <? now - last)%Z in
  let app := app_exec elapsed Statistics.FirstMode true (app_start 0%Z)
               (map Thread (played ["sad"; "sad"; "sad"]) ++ [Poll 5%Z]) in
  reactions (app_exec elapsed Statistics.FirstMode true (resume_detection app)
               (map Thread (played ["happy"; "happy"]) ++ [Poll 9%Z; Poll 12%Z]))
  = reactions app.
Proof.
  intros elapsed app.
  apply resume_needs_three_commits. vm_compute. lia.
Defined.

(** X14. Without a click on Resume Detection the GUI never reacts to the
    same mood twice in a row: two consecutive reactions are for different
    moods. *)
Theorem no_repeat_without_resume
    (Time : Type) (elapsed : Time -> Time -> bool) (epoch : Time)
    (sem : Statistics.ModeSemantics) (DEEPFACE_AVAILABLE : bool)
    (es : list (AppEvent Time))
    (Hnoresume : ~ In ClickResume es) :
  forall before t1 mood1 t2 mood2 after,
    reactions (app_exec elapsed sem DEEPFACE_AVAILABLE (app_start epoch) es)
      = before ++ (t1, mood1) :: (t2, mood2) :: after ->
    mood1 <> mood2.
Proof.
  assert (Hinv :
    let app := app_exec elapsed sem DEEPFACE_AVAILABLE (app_start epoch) es in
    match rev (reactions app) with
    | [] => current_displayed app = None
    | (_, m) :: _ => current_displayed app = Some m
    end /\
    forall before t1 mood1 t2 mood2 after,
      reactions app = before ++ (t1, mood1) :: (t2, mood2) :: after -> mood1 <> mood2).
  { induction es as [|e es IH] using rev_ind.
    - simpl. split; [reflexivity|].
      intros before t1 mood1 t2 mood2 after H. destruct before; discriminate.
    - rewrite app_exec_snoc.
      set (app := app_exec elapsed sem DEEPFACE_AVAILABLE (app_start epoch) es) in *.
      destruct IH as [Hcur Hadj];
        [intros Hin; apply Hnoresume; apply in_or_app; now left|].
      cbv zeta.
      destruct e as [[frame rnd| | | |]|now| | |]; cbn [app_step];
        try (split; assumption).
      + destruct (poll_cases Time elapsed now app) as [E|[stable [_ [_ [Hd [_ E]]]]]];
          rewrite E; [split; assumption|].
        cbn [reactions current_displayed]. rewrite rev_app_distr. simpl.
        split; [reflexivity|].
        intros before t1 mood1 t2 mood2 after H.
        destruct after as [|x after] using rev_ind.
        * replace (before ++ [(t1, mood1); (t2, mood2)])
            with ((before ++ [(t1, mood1)]) ++ [(t2, mood2)]) in H
            by (now rewrite <- app_assoc).
          apply app_inj_tail in H. destruct H as [Hlog Hlast].
          inversion Hlast; subst t2 mood2.
          rewrite Hlog, rev_app_distr in Hcur. simpl in Hcur.
          rewrite Hcur in Hd. simpl in Hd.
          intros Heq. subst mood1. now rewrite String.eqb_refl in Hd.
        * clear IHafter.
          replace (before ++ (t1, mood1) :: (t2, mood2) :: after ++ [x])
            with ((before ++ (t1, mood1) :: (t2, mood2) :: after) ++ [x]) in H
            by (now rewrite <- app_assoc).
          apply app_inj_tail in H. destruct H as [Hlog _].
          now apply (Hadj before t1 mood1 t2 mood2 after).
      + exfalso. apply Hnoresume. apply in_or_app. right. now left. }
  exact (proj2 Hinv).
Qed.

Lemma no_repeat_without_resume_witness :
  reactions (app_exec (fun now last => (1 <? now - last)%Z) Statistics.FirstMode true
               (app_start 0%Z)
               (map Thread (played scenario_outvoted)
                ++ [Thread (LoopHead (Some (frame_saying "happy")) 0);
                    Poll 5%Z; Thread Commit; Poll 9%Z]))
    = [(5%Z, "sad"); (9%Z, "happy")] /\
  "sad" <> "happy".
Proof.
  split; [reflexivity|].
  apply (no_repeat_without_resume Z (fun now last => (1 <? now - last)%Z) 0%Z
           Statistics.FirstMode true
           (map Thread (played scenario_outvoted)
            ++ [Thread (LoopHead (Some (frame_saying "happy")) 0);
                Poll 5%Z; Thread Commit; Poll 9%Z])
           ltac:(vm_compute; intros H;
                 repeat (destruct H as [H|H]; [discriminate|]); destruct H)
           [] 5%Z "sad" 9%Z "happy" []).
  reflexivity.
Defined.

(** Likewise with the poll taken as one step: a prediction already under
    way when the poll reacts is still committed after the pause, can change
    the verdict, and the next poll then reacts again. *)
Lemma pending_prediction_reacts_again :
  let elapsed := fun now last => (1 <? now - last)%Z in
  let es := map Thread (played scenario_outvoted)
            ++ [Thread (LoopHead (Some (frame_saying "happy")) 0);
                Poll 5%Z; Thread Commit; Poll 9%Z] in
  reactions (app_exec elapsed Statistics.FirstMode true (app_start 0%Z) es)
    = [(5%Z, "sad"); (9%Z, "happy")] /\
  reactions (app_exec elapsed Statistics.UniqueMode true (app_start 0%Z) es)
    = [(5%Z, "sad"); (9%Z, "happy")].
Proof. split; reflexivity. Qed.
